(** * meal_max: the kitchen model and the battle model

    A shallow embedding of [meal_max/models/kitchen_model.py] and
    [meal_max/models/battle_model.py].

    - Python [float] is IEEE 754 binary64: it is modelled by Rocq's primitive
      floats ([PrimFloat.float]), whose operations are the same correctly
      rounded binary64 operations.  The price of a [Meal] is a [float], as
      its annotation says and as sqlite returns it from the REAL column.
    - Python [int] is [Z]; [str] is [string]; [len] of a [str] is the length
      of the string.
    - Exceptions are values of [exn]; a function that may raise returns a
      [result].
    - An [int] that is passed to sqlite as a parameter of a statement binds
      when it is an integer of 64 bits; otherwise [cursor.execute] raises
      OverflowError and the statement does not run.
    - The sqlite table [meals] is a list of rows in storage order, together
      with the list of the SQL statements executed so far. *)

From Stdlib Require Import ZArith List String Ascii Bool Lia Floats.
From Stdlib Require Import DecimalString Sorted Permutation.
Import ListNotations.

Local Open Scope string_scope.
Local Open Scope Z_scope.

(** ** Python values *)

Module Py.

(** [float(z)] for an [int]: the nearest binary64 value, ties to even.
    (CPython raises [OverflowError] for an [int] beyond the binary64 range;
    the conversions of this program are of lengths of strings and of the
    literals 1, 2, 3 and 100.) *)
Definition float_of_int (z : Z) : float :=
  SF2Prim (binary_normalize prec emax z 0 false).

(** [str(z)] for an [int]: its decimal digits, with a leading minus sign. *)
Definition str_of_int (z : Z) : string :=
  NilZero.string_of_int (Z.to_int z).

(** The objects the program receives where its annotation says [float] but
    the code checks the type at run time ([create_meal]'s [price]). *)
Inductive object :=
| PyInt (z : Z)
| PyFloat (f : float)
| PyBool (b : bool)
| PyStr (s : string)
| PyNone.

(** [isinstance(o, (int, float))]; [bool] is a subclass of [int]. *)
Definition is_int_or_float (o : object) : bool :=
  match o with
  | PyInt _ | PyFloat _ | PyBool _ => true
  | PyStr _ | PyNone => false
  end.

(** [o <= 0] for an [int], [float] or [bool]. *)
Definition le_zero (o : object) : bool :=
  match o with
  | PyInt z => z <=? 0
  | PyFloat f => PrimFloat.leb f 0%float
  | PyBool b => negb b
  | PyStr _ | PyNone => false
  end.

(** The value sqlite stores in a REAL column, and Python reads back. *)
Definition to_float (o : object) : float :=
  match o with
  | PyInt z => float_of_int z
  | PyFloat f => f
  | PyBool b => if b then 1%float else 0%float
  | PyStr _ | PyNone => nan
  end.

(** The integers sqlite stores, of 64 bits with a sign.  Binding another
    [int] to a parameter of a statement raises OverflowError, and the
    statement does not run. *)
Definition is_sqlite_integer (z : Z) : bool :=
  (- 2 ^ 63 <=? z) && (z <? 2 ^ 63).

Definition sqlite_binds (o : object) : bool :=
  match o with
  | PyInt z => is_sqlite_integer z
  | PyFloat _ | PyBool _ | PyStr _ | PyNone => true
  end.

(** [x in l] for a list of strings. *)
Definition str_in (x : string) (l : list string) : bool :=
  existsb (String.eqb x) l.

(** The texts of the exceptions the two modules raise.  Each constructor is
    one message of the source, with the values its f-string interpolates. *)
Inductive message :=
| PricePositive
    (* "Price must be a positive value." *)
| DifficultyLevel
    (* "Difficulty must be 'LOW', 'MED', or 'HIGH'." *)
| InvalidPrice (price : object)
    (* f"Invalid price: {price}. Price must be a positive number." *)
| InvalidDifficulty (difficulty : string)
    (* f"Invalid difficulty level: {difficulty}. Must be 'LOW', 'MED', or 'HIGH'." *)
| AlreadyExists (meal : string)
    (* f"Meal with name '{meal}' already exists" *)
| IdDeleted (meal_id : Z)
    (* f"Meal with ID {meal_id} has been deleted" *)
| IdNotFound (meal_id : Z)
    (* f"Meal with ID {meal_id} not found" *)
| NameDeleted (meal_name : string)
    (* f"Meal with name {meal_name} has been deleted" *)
| NameNotFound (meal_name : string)
    (* f"Meal with name {meal_name} not found" *)
| InvalidSortBy (sort_by : string)
    (* "Invalid sort_by parameter: %s" % sort_by *)
| InvalidResult (result : string)
    (* f"Invalid result: {result}. Expected 'win' or 'loss'." *)
| TwoCombatants
    (* "Two combatants must be prepped for a battle." *)
| ListFull
    (* "Combatant list is full, cannot add more combatants." *)
| NotInList.
    (* "list.remove(x): x not in list" *)

(** The text of a message; [None] where the text holds the [repr] of a
    [float], which is not modelled. *)
Definition message_text (m : message) : option string :=
  match m with
  | PricePositive => Some "Price must be a positive value."
  | DifficultyLevel => Some "Difficulty must be 'LOW', 'MED', or 'HIGH'."
  | InvalidPrice price =>
      let wrap s := "Invalid price: " ++ s ++ ". Price must be a positive number." in
      match price with
      | PyInt z => Some (wrap (str_of_int z))
      | PyBool b => Some (wrap (if b then "True" else "False"))
      | PyStr s => Some (wrap s)
      | PyNone => Some (wrap "None")
      | PyFloat _ => None
      end
  | InvalidDifficulty d =>
      Some ("Invalid difficulty level: " ++ d ++ ". Must be 'LOW', 'MED', or 'HIGH'.")
  | AlreadyExists meal => Some ("Meal with name '" ++ meal ++ "' already exists")
  | IdDeleted i => Some ("Meal with ID " ++ str_of_int i ++ " has been deleted")
  | IdNotFound i => Some ("Meal with ID " ++ str_of_int i ++ " not found")
  | NameDeleted n => Some ("Meal with name " ++ n ++ " has been deleted")
  | NameNotFound n => Some ("Meal with name " ++ n ++ " not found")
  | InvalidSortBy s => Some ("Invalid sort_by parameter: " ++ s)
  | InvalidResult r => Some ("Invalid result: " ++ r ++ ". Expected 'win' or 'loss'.")
  | TwoCombatants => Some "Two combatants must be prepped for a battle."
  | ListFull => Some "Combatant list is full, cannot add more combatants."
  | NotInList => Some "list.remove(x): x not in list"
  end.

Inductive exn :=
| ValueError (m : message)
| KeyError (key : string)
| TypeError
| OverflowError.
    (* "Python int too large to convert to SQLite INTEGER" *)

Inductive result (A : Type) :=
| Ok (a : A)
| Raise (e : exn).
Arguments Ok {A} a.
Arguments Raise {A} e.

End Py.
Import Py.

(** ** kitchen_model.py *)

Module Kitchen.

(** The dataclass [Meal]. *)
Record Meal := {
  id : Z;
  meal : string;
  cuisine : string;
  price : float;
  difficulty : string
}.

(** [Meal(id=.., meal=.., cuisine=.., price=.., difficulty=..)]: the
    generated [__init__] assigns the fields and runs [__post_init__]. *)
Definition Meal_init (id0 : Z) (meal0 cuisine0 : string) (price0 : float)
    (difficulty0 : string) : result Meal :=
  if PrimFloat.ltb price0 0%float then
    Raise (ValueError PricePositive)
  else if negb (str_in difficulty0 ["LOW"; "MED"; "HIGH"]) then
    Raise (ValueError DifficultyLevel)
  else
    Ok {| id := id0; meal := meal0; cuisine := cuisine0;
          price := price0; difficulty := difficulty0 |}.

(** The generated [__eq__] of the dataclass: the tuples of the fields are
    compared, a [float] with IEEE equality (a NaN differs from itself, the two
    zeros are equal).  CPython also finds two fields equal when they are the
    same object; that case is covered by [Meal_is] below, except for two
    distinct meals that share one NaN object as their price. *)
Definition Meal_eq (a b : Meal) : bool :=
  (id a =? id b) && String.eqb (meal a) (meal b)
  && String.eqb (cuisine a) (cuisine b)
  && PrimFloat.eqb (price a) (price b)
  && String.eqb (difficulty a) (difficulty b).

(** [a is b], as far as values can tell: every field is bit for bit the
    same.  An object is always found equal to itself, whatever its price;
    two distinct objects with the same fields are the same value, so that
    removing the one or the other from the list leaves the same list of
    values. *)
Definition Meal_is (a b : Meal) : bool :=
  (id a =? id b) && String.eqb (meal a) (meal b)
  && String.eqb (cuisine a) (cuisine b)
  && PrimFloat.Leibniz.eqb (price a) (price b)
  && String.eqb (difficulty a) (difficulty b).

(** *** The table [meals]

    Modelled from the spec: the table definition (sql/create_meal_table.sql
    is not among the sources).  A record has a numeric identifier, a unique
    name, a cuisine, a price, a difficulty, a battle count and a win count
    (integers, 0 at creation) and a deleted flag (false at creation). *)
Record row := {
  r_id : Z;
  r_meal : string;
  r_cuisine : string;
  r_price : float;
  r_difficulty : string;
  r_battles : Z;
  r_wins : Z;
  r_deleted : bool
}.

(** The statements the module sends to sqlite. *)
Inductive statement :=
| InsertMeal (meal cuisine : string) (price : object) (difficulty : string)
| SelectDeleted (meal_id : Z)
| SetDeleted (meal_id : Z)
| SelectLeaderboard (order_by : string)
| SelectById (meal_id : Z)
| UpdateWin (meal_id : Z)
| UpdateLoss (meal_id : Z).

(** The database: the committed rows in storage order, and the statements
    executed so far (the latest first).  [get_db_connection] is taken to give
    a working connection. *)
Record database := {
  meals : list row;
  executed : list statement
}.

Definition execute (q : statement) (d : database) : database :=
  {| meals := meals d; executed := q :: executed d |}.

Definition commit (rows : list row) (d : database) : database :=
  {| meals := rows; executed := executed d |}.

(** [cursor.fetchone()] after [SELECT ... WHERE id = ?].

    [cursor.execute] binds [meal_id] before the SELECT runs, and raises
    OverflowError for an [int] that is no integer of sqlite.  The ids of
    the records are integers of sqlite ([ids_in_range]), so an id that
    finds a record has bound; the functions below therefore test
    [is_sqlite_integer] where no record is found, and leave the database
    as it was when the id does not bind. *)
Definition fetchone_id (meal_id : Z) (d : database) : option row :=
  find (fun r => r_id r =? meal_id) (meals d).

(** [UPDATE meals SET ... WHERE id = ?]. *)
Definition update_where_id (meal_id : Z) (f : row -> row) (rows : list row)
    : list row :=
  map (fun r => if r_id r =? meal_id then f r else r) rows.

(** Modelled from the spec: the identifier sqlite gives a new record, one
    more than the largest in the table. *)
Definition next_id (rows : list row) : Z :=
  1 + fold_right (fun r acc => Z.max (r_id r) acc) 0 rows.

Definition create_meal (meal0 cuisine0 : string) (price0 : object)
    (difficulty0 : string) (d : database) : result unit * database :=
  if negb (is_int_or_float price0) || le_zero price0 then
    (Raise (ValueError (InvalidPrice price0)), d)
  else if negb (str_in difficulty0 ["LOW"; "MED"; "HIGH"]) then
    (Raise (ValueError (InvalidDifficulty difficulty0)), d)
  else if negb (sqlite_binds price0) then
    (* the price does not bind: the INSERT does not run *)
    (Raise OverflowError, d)
  else
    let d1 := execute (InsertMeal meal0 cuisine0 price0 difficulty0) d in
    if existsb (fun r => String.eqb (r_meal r) meal0) (meals d) then
      (* sqlite3.IntegrityError *)
      (Raise (ValueError (AlreadyExists meal0)), d1)
    else
      (Ok tt,
       commit (meals d ++ [{| r_id := next_id (meals d); r_meal := meal0;
                              r_cuisine := cuisine0;
                              r_price := to_float price0;
                              r_difficulty := difficulty0;
                              r_battles := 0; r_wins := 0;
                              r_deleted := false |}]) d1).

Definition delete_meal (meal_id : Z) (d : database) : result unit * database :=
  let d1 := execute (SelectDeleted meal_id) d in
  match fetchone_id meal_id d with
  | Some r =>
      if r_deleted r then (Raise (ValueError (IdDeleted meal_id)), d1)
      else
        let d2 := execute (SetDeleted meal_id) d1 in
        (Ok tt,
         commit (update_where_id meal_id
                   (fun r => {| r_id := r_id r; r_meal := r_meal r;
                                r_cuisine := r_cuisine r; r_price := r_price r;
                                r_difficulty := r_difficulty r;
                                r_battles := r_battles r; r_wins := r_wins r;
                                r_deleted := true |}) (meals d)) d2)
  | None =>
      if is_sqlite_integer meal_id then
        (* [None[0]] raises TypeError, which is caught *)
        (Raise (ValueError (IdNotFound meal_id)), d1)
      else
        (* the id does not bind: the SELECT does not run *)
        (Raise OverflowError, d)
  end.

Definition get_meal_by_id (meal_id : Z) (d : database) : result Meal * database :=
  let d1 := execute (SelectById meal_id) d in
  match fetchone_id meal_id d with
  | Some r =>
      if r_deleted r then (Raise (ValueError (IdDeleted meal_id)), d1)
      else (Meal_init (r_id r) (r_meal r) (r_cuisine r) (r_price r)
              (r_difficulty r), d1)
  | None =>
      if is_sqlite_integer meal_id then
        (Raise (ValueError (IdNotFound meal_id)), d1)
      else
        (* the id does not bind: the SELECT does not run *)
        (Raise OverflowError, d)
  end.

Definition update_meal_stats (meal_id : Z) (result0 : string) (d : database)
    : result unit * database :=
  let d1 := execute (SelectDeleted meal_id) d in
  match fetchone_id meal_id d with
  | Some r =>
      if r_deleted r then (Raise (ValueError (IdDeleted meal_id)), d1)
      else if String.eqb result0 "win" then
        let d2 := execute (UpdateWin meal_id) d1 in
        (Ok tt,
         commit (update_where_id meal_id
                   (fun r => {| r_id := r_id r; r_meal := r_meal r;
                                r_cuisine := r_cuisine r; r_price := r_price r;
                                r_difficulty := r_difficulty r;
                                r_battles := r_battles r + 1;
                                r_wins := r_wins r + 1;
                                r_deleted := r_deleted r |}) (meals d)) d2)
      else if String.eqb result0 "loss" then
        let d2 := execute (UpdateLoss meal_id) d1 in
        (Ok tt,
         commit (update_where_id meal_id
                   (fun r => {| r_id := r_id r; r_meal := r_meal r;
                                r_cuisine := r_cuisine r; r_price := r_price r;
                                r_difficulty := r_difficulty r;
                                r_battles := r_battles r + 1;
                                r_wins := r_wins r;
                                r_deleted := r_deleted r |}) (meals d)) d2)
      else (Raise (ValueError (InvalidResult result0)), d1)
  | None =>
      if is_sqlite_integer meal_id then
        (Raise (ValueError (IdNotFound meal_id)), d1)
      else
        (* the id does not bind: the SELECT does not run *)
        (Raise OverflowError, d)
  end.

(** *** The leaderboard *)

(** A REAL result of sqlite arithmetic: a NaN becomes NULL (None). *)
Definition sql_real (f : float) : option float :=
  if PrimFloat.is_nan f then None else Some f.

Definition sql_mul (a b : option float) : option float :=
  match a, b with
  | Some x, Some y => sql_real (x * y)
  | _, _ => None
  end.

(** Division by zero gives NULL. *)
Definition sql_div (a b : option float) : option float :=
  match a, b with
  | Some x, Some y =>
      if PrimFloat.eqb y 0%float then None else sql_real (x / y)
  | _, _ => None
  end.

(** The column [(wins * 1.0 / battles) AS win_pct]. *)
Definition win_pct_column (r : row) : option float :=
  sql_div (sql_mul (Some (float_of_int (r_wins r))) (Some 1%float))
          (Some (float_of_int (r_battles r))).

(** The comparison of two values of a column: NULL is below every number. *)
Definition sql_lt (a b : option float) : bool :=
  match a, b with
  | None, Some _ => true
  | Some x, Some y => PrimFloat.ltb x y
  | _, None => false
  end.

(** [ORDER BY ... DESC]: rows that compare equal keep their storage order. *)
Section OrderBy.
Context {A : Type}.
Variable lt : A -> A -> bool.

Fixpoint insert_desc (x : A) (l : list A) : list A :=
  match l with
  | [] => [x]
  | y :: t => if lt x y then y :: insert_desc x t else x :: y :: t
  end.

Definition order_by_desc (l : list A) : list A :=
  fold_right insert_desc [] l.
End OrderBy.

(** [SELECT ... FROM meals WHERE deleted = false AND battles > 0], with the
    [ORDER BY] clause the function appended. *)
Definition select_leaderboard (by_win_pct : bool) (rows : list row) : list row :=
  let live := filter (fun r => negb (r_deleted r) && (0 <? r_battles r)) rows in
  if by_win_pct then
    order_by_desc (fun a b => sql_lt (win_pct_column a) (win_pct_column b)) live
  else
    order_by_desc (fun a b => r_wins a <? r_wins b) live.

(** [n / d] rounded to the nearest integer, a tie to the even one
    ([0 <= n], [0 < d]). *)
Definition round_half_even (n d : Z) : Z :=
  let q := n / d in
  match (2 * (n mod d)) ?= d with
  | Lt => q
  | Gt => q + 1
  | Eq => if Z.even q then q else q + 1
  end.

(** [round(x, 1)] for a [float]: the exact value of [x] is rounded to one
    decimal (ties to even) and the decimal is converted back to the nearest
    [float]; zeros, infinities and NaN round to themselves. *)
Definition round1 (x : float) : float :=
  match Prim2SF x with
  | S754_finite s m e =>
      let tenths :=
        if 0 <=? e then Zpos m * 2 ^ e * 10
        else round_half_even (Zpos m * 10) (2 ^ (- e)) in
      match tenths with
      | Zpos t =>
          SF2Prim (SFdiv prec emax (S754_finite s t 0) (S754_finite false 10 0))
      | _ => if s then (-0)%float else 0%float
      end
  | _ => x
  end.

(** One dictionary of the list [get_leaderboard] returns. *)
Record entry := {
  e_id : Z;
  e_meal : string;
  e_cuisine : string;
  e_price : float;
  e_difficulty : string;
  e_battles : Z;
  e_wins : Z;
  e_win_pct : float
}.

(** The body of the loop over the fetched rows; [None * 100] raises
    TypeError. *)
Definition to_entry (r : row) : result entry :=
  match win_pct_column r with
  | Some pct =>
      Ok {| e_id := r_id r; e_meal := r_meal r; e_cuisine := r_cuisine r;
            e_price := r_price r; e_difficulty := r_difficulty r;
            e_battles := r_battles r; e_wins := r_wins r;
            e_win_pct := round1 (pct * float_of_int 100) |}
  | None => Raise TypeError
  end.

Fixpoint to_entries (rows : list row) : result (list entry) :=
  match rows with
  | [] => Ok []
  | r :: rest =>
      match to_entry r with
      | Ok e =>
          match to_entries rest with
          | Ok es => Ok (e :: es)
          | Raise x => Raise x
          end
      | Raise x => Raise x
      end
  end.

Definition get_leaderboard (sort_by : string) (d : database)
    : result (list entry) * database :=
  if String.eqb sort_by "win_pct" then
    (to_entries (select_leaderboard true (meals d)),
     execute (SelectLeaderboard "win_pct") d)
  else if String.eqb sort_by "wins" then
    (to_entries (select_leaderboard false (meals d)),
     execute (SelectLeaderboard "wins") d)
  else
    (Raise (ValueError (InvalidSortBy sort_by)), d).

(** *** The leaderboard, as the specification words it

    The records on the leaderboard are those that are not deleted and have
    a battle count above 0; each comes with
    win_pct = round(wins / battles x 100, 1 decimal). *)

Definition on_leaderboard (r : row) : bool :=
  negb (r_deleted r) && (0 <? r_battles r).

Definition win_ratio (wins battles : Z) : float :=
  (float_of_int wins * 1 / float_of_int battles)%float.

Definition leaderboard_entry (r : row) : entry :=
  {| e_id := r_id r; e_meal := r_meal r; e_cuisine := r_cuisine r;
     e_price := r_price r; e_difficulty := r_difficulty r;
     e_battles := r_battles r; e_wins := r_wins r;
     e_win_pct :=
       round1 (win_ratio (r_wins r) (r_battles r) * float_of_int 100)%float |}.

(** A counter of the table: an integer of sqlite that is not negative. *)
Definition is_counter (z : Z) : bool :=
  (0 <=? z) && (z <? 2 ^ 63).

Definition counters_in_range (rows : list row) : bool :=
  forallb (fun r => is_counter (r_wins r) && is_counter (r_battles r)) rows.

(** The ids of the table: integers of sqlite, as the ids of a table that
    sqlite holds are. *)
Definition ids_in_range (rows : list row) : bool :=
  forallb (fun r => is_sqlite_integer (r_id r)) rows.

End Kitchen.

(** ** battle_model.py *)

Module Battle.
Import Kitchen.

Local Open Scope float_scope.

(** [self.combatants.remove(x)]: the first element that is [x] or equals
    [x] is removed; ValueError when there is none. *)
Fixpoint list_remove (x : Meal) (l : list Meal) : result (list Meal) :=
  match l with
  | [] => Raise (ValueError NotInList)
  | y :: t =>
      if Meal_is y x || Meal_eq y x then Ok t
      else match list_remove x t with
           | Ok t' => Ok (y :: t')
           | Raise e => Raise e
           end
  end.

(** [difficulty_modifier[key]]; KeyError for a key that is not in the
    dictionary. *)
Definition difficulty_modifier (key : string) : result Z :=
  if String.eqb key "HIGH" then Ok 1%Z
  else if String.eqb key "MED" then Ok 2%Z
  else if String.eqb key "LOW" then Ok 3%Z
  else Raise (KeyError key).

Section Engine.

(** The persistence layer behind [update_meal_stats], as the battle model
    imports it: any store and any function on it. *)
Variable Store : Type.
Variable update_meal_stats : Z -> string -> Store -> result unit * Store.

(** A [BattleModel] instance with the store it writes to; [invoked] lists
    the calls of [update_meal_stats] made so far, the latest first. *)
Record state := {
  combatants : list Meal;
  store : Store;
  invoked : list (Z * string)
}.

(** A method: it returns or raises, and leaves a state. *)
Definition M (A : Type) : Type := state -> result A * state.

Definition ret {A} (a : A) : M A := fun st => (Ok a, st).

Definition raise {A} (e : exn) : M A := fun st => (Raise e, st).

Definition bind {A B} (m : M A) (k : A -> M B) : M B :=
  fun st =>
    match m st with
    | (Ok a, st') => k a st'
    | (Raise e, st') => (Raise e, st')
    end.

Definition lift {A} (r : result A) : M A := fun st => (r, st).

Definition set_combatants (l : list Meal) : M unit :=
  fun st => (Ok tt, {| combatants := l; store := store st;
                       invoked := invoked st |}).

(** A call of the imported [update_meal_stats]. *)
Definition call_update_meal_stats (meal_id : Z) (result0 : string) : M unit :=
  fun st =>
    let '(r, s') := update_meal_stats meal_id result0 (store st) in
    (r, {| combatants := combatants st; store := s';
           invoked := (meal_id, result0) :: invoked st |}).

Definition init (s : Store) : state :=
  {| combatants := []; store := s; invoked := [] |}.

Definition get_battle_score (combatant : Meal) : M float :=
  bind (lift (difficulty_modifier (difficulty combatant))) (fun modifier =>
  ret (price combatant
         * float_of_int (Z.of_nat (String.length (cuisine combatant)))
       - float_of_int modifier)).

(** [battle], with the number [get_random()] returns. *)
Definition battle (random_number : float) : M string :=
  fun st =>
    if (List.length (combatants st) <? 2)%nat then
      raise (ValueError TwoCombatants) st
    else
      match combatants st with
      | combatant_1 :: combatant_2 :: _ =>
          bind (get_battle_score combatant_1) (fun score_1 =>
          bind (get_battle_score combatant_2) (fun score_2 =>
          let delta := abs (score_1 - score_2) / float_of_int 100 in
          let '(winner, loser) :=
            if random_number <? delta then (combatant_1, combatant_2)
            else (combatant_2, combatant_1) in
          bind (call_update_meal_stats (id winner) "win") (fun _ =>
          bind (call_update_meal_stats (id loser) "loss") (fun _ =>
          bind (fun st' => lift (list_remove loser (combatants st')) st')
            (fun rest =>
          bind (set_combatants rest) (fun _ =>
          ret (meal winner))))))) st
      | _ => raise (ValueError TwoCombatants) st
      end.

Definition clear_combatants : M unit := set_combatants [].

Definition get_combatants : M (list Meal) :=
  fun st => (Ok (combatants st), st).

Definition prep_combatant (combatant_data : Meal) : M unit :=
  fun st =>
    if (2 <=? List.length (combatants st))%nat then
      raise (ValueError ListFull) st
    else
      set_combatants (combatants st ++ [combatant_data]) st.

(** The operations a caller can apply to a [BattleModel], and a run of a
    sequence of them. *)
Inductive operation :=
| PrepCombatant (combatant_data : Meal)
| ClearCombatants
| GetCombatants
| DoBattle (random_number : float).

Definition step (o : operation) (st : state) : state :=
  match o with
  | PrepCombatant m => snd (prep_combatant m st)
  | ClearCombatants => snd (clear_combatants st)
  | GetCombatants => snd (get_combatants st)
  | DoBattle r => snd (battle r st)
  end.

Definition run (ops : list operation) (st : state) : state :=
  fold_left (fun s o => step o s) ops st.

End Engine.

Arguments combatants {Store} _.
Arguments store {Store} _.
Arguments invoked {Store} _.
Arguments Build_state {Store} _ _ _.
Arguments init {Store} _.
Arguments get_battle_score {Store} _ _.
Arguments battle {Store} _ _ _.
Arguments clear_combatants {Store} _.
Arguments get_combatants {Store} _.
Arguments prep_combatant {Store} _ _.
Arguments step {Store} _ _ _.
Arguments run {Store} _ _ _.

(** [get_random()] returns a number of the interval from 0 (included) to 1
    (excluded).  Modelled from the spec: meal_max/utils/random_utils.py is
    not among the sources. *)
Definition in_unit_interval (r : float) : bool :=
  (0 <=? r) && (r <? 1).

(** The battle model over the kitchen model's database. *)
Definition kitchen_battle (random_number : float)
    : state database -> result string * state database :=
  battle Kitchen.update_meal_stats random_number.

End Battle.

Import Kitchen Battle.

(** ** Test data: the meals of the test suite *)

Definition pasta : Meal :=
  {| id := 1; meal := "Pasta"; cuisine := "Italian";
     price := 12.5; difficulty := "MED" |}.

Definition burger : Meal :=
  {| id := 2; meal := "Burger"; cuisine := "American";
     price := 8; difficulty := "LOW" |}.

Definition fresh_row (m : Meal) : row :=
  {| r_id := id m; r_meal := meal m; r_cuisine := cuisine m;
     r_price := price m; r_difficulty := difficulty m;
     r_battles := 0; r_wins := 0; r_deleted := false |}.

Definition deleted_row (m : Meal) : row :=
  {| r_id := id m; r_meal := meal m; r_cuisine := cuisine m;
     r_price := price m; r_difficulty := difficulty m;
     r_battles := 0; r_wins := 0; r_deleted := true |}.

Definition two_meals : database :=
  {| meals := [fresh_row pasta; fresh_row burger]; executed := [] |}.

Definition burger_deleted : database :=
  {| meals := [fresh_row pasta; deleted_row burger]; executed := [] |}.

Definition ready (d : database) : state database :=
  {| combatants := [pasta; burger]; store := d; invoked := [] |}.

(** A table after some battles: wins 2 of 3, 1 of 1, none fought, and a
    deleted record. *)
Definition after_battles : database :=
  {| meals :=
       [ {| r_id := 1; r_meal := "Pasta"; r_cuisine := "Italian";
            r_price := 12.5; r_difficulty := "MED";
            r_battles := 3; r_wins := 2; r_deleted := false |};
         {| r_id := 2; r_meal := "Burger"; r_cuisine := "American";
            r_price := 8; r_difficulty := "LOW";
            r_battles := 1; r_wins := 1; r_deleted := false |};
         {| r_id := 3; r_meal := "Sushi"; r_cuisine := "Japanese";
            r_price := 15; r_difficulty := "HIGH";
            r_battles := 0; r_wins := 0; r_deleted := false |};
         {| r_id := 4; r_meal := "Tacos"; r_cuisine := "Mexican";
            r_price := 8; r_difficulty := "LOW";
            r_battles := 5; r_wins := 5; r_deleted := true |} ];
     executed := [] |}.

(** The number 0.1 and the number 0.3 as binary64 values. *)
Definition r_0_1 : float := 0x1.999999999999ap-4%float.
Definition r_0_3 : float := 0x1.3333333333333p-2%float.

(** ** The rest of kitchen_model.py, and runs of requests *)

Module Requests.

Local Open Scope Z_scope.

(** [cursor.fetchone()] after [SELECT ... WHERE meal = ?]. *)
Definition fetchone_name (meal_name : string) (rows : list row) : option row :=
  find (fun r => String.eqb (r_meal r) meal_name) rows.

(** [get_meal_by_name].  Its SELECT is not among the statements of
    [statement]; the function is given the rows it reads, and writes
    nothing. *)
Definition get_meal_by_name (meal_name : string) (rows : list row)
    : result Meal :=
  match fetchone_name meal_name rows with
  | Some r =>
      if r_deleted r then Raise (ValueError (NameDeleted meal_name))
      else Meal_init (r_id r) (r_meal r) (r_cuisine r) (r_price r)
             (r_difficulty r)
  | None => Raise (ValueError (NameNotFound meal_name))
  end.

(** The calls a client of the kitchen model can make, and the database they
    leave. *)
Inductive request :=
| CreateMeal (meal cuisine : string) (price : object) (difficulty : string)
| DeleteMeal (meal_id : Z)
| GetLeaderboard (sort_by : string)
| GetMealById (meal_id : Z)
| UpdateMealStats (meal_id : Z) (result : string).

Definition serve (q : request) (d : database) : database :=
  match q with
  | CreateMeal m c p f => snd (create_meal m c p f d)
  | DeleteMeal i => snd (delete_meal i d)
  | GetLeaderboard k => snd (get_leaderboard k d)
  | GetMealById i => snd (get_meal_by_id i d)
  | UpdateMealStats i r => snd (update_meal_stats i r d)
  end.

Definition serve_all (qs : list request) (d : database) : database :=
  fold_left (fun d0 q => serve q d0) qs d.

Definition empty_database : database := {| meals := []; executed := [] |}.

(** A record exists for the id and is not deleted. *)
Definition is_live (meal_id : Z) (d : database) : bool :=
  match fetchone_id meal_id d with
  | Some r => negb (r_deleted r)
  | None => false
  end.

(** The battles and the wins recorded in the whole table. *)
Definition total_battles (rows : list row) : Z :=
  fold_right (fun r acc => r_battles r + acc) 0 rows.

Definition total_wins (rows : list row) : Z :=
  fold_right (fun r acc => r_wins r + acc) 0 rows.

(** The win count of a record is between 0 and its battle count. *)
Definition wins_within_battles (r : row) : bool :=
  (0 <=? r_wins r) && (r_wins r <=? r_battles r).

(** The three UPDATE statements, on one record. *)
Definition record_win (r : row) : row :=
  {| r_id := r_id r; r_meal := r_meal r; r_cuisine := r_cuisine r;
     r_price := r_price r; r_difficulty := r_difficulty r;
     r_battles := r_battles r + 1; r_wins := r_wins r + 1;
     r_deleted := r_deleted r |}.

Definition record_loss (r : row) : row :=
  {| r_id := r_id r; r_meal := r_meal r; r_cuisine := r_cuisine r;
     r_price := r_price r; r_difficulty := r_difficulty r;
     r_battles := r_battles r + 1; r_wins := r_wins r;
     r_deleted := r_deleted r |}.

Definition mark_deleted (r : row) : row :=
  {| r_id := r_id r; r_meal := r_meal r; r_cuisine := r_cuisine r;
     r_price := r_price r; r_difficulty := r_difficulty r;
     r_battles := r_battles r; r_wins := r_wins r;
     r_deleted := true |}.

(** What [update_meal_stats] does not write: everything but the two
    counters. *)
Definition description (r : row) : Z * string * string * float * string * bool :=
  (r_id r, r_meal r, r_cuisine r, r_price r, r_difficulty r, r_deleted r).

End Requests.

(** A database in which the pasta has won once and the burger is deleted
    after one lost battle. *)
Definition pasta_won : database :=
  {| meals :=
       [ {| r_id := 1; r_meal := "Pasta"; r_cuisine := "Italian";
            r_price := 12.5; r_difficulty := "MED";
            r_battles := 1; r_wins := 1; r_deleted := false |};
         {| r_id := 2; r_meal := "Burger"; r_cuisine := "American";
            r_price := 8; r_difficulty := "LOW";
            r_battles := 1; r_wins := 0; r_deleted := true |} ];
     executed := [] |}.

(** The meals of the test of the largest delta, and a meal whose
    difficulty was overwritten after its construction. *)
Definition expensive : Meal :=
  {| id := 1; meal := "ExpensiveMeal"; cuisine := "LongCuisineName";
     price := 1000; difficulty := "LOW" |}.

Definition cheap : Meal :=
  {| id := 2; meal := "CheapMeal"; cuisine := "Short";
     price := 1; difficulty := "HIGH" |}.

Definition invalid_meal : Meal :=
  {| id := 1; meal := "InvalidMeal"; cuisine := "Cuisine";
     price := 10; difficulty := "INVALID" |}.

Definition pool (l : list Meal) (d : database) : state database :=
  {| combatants := l; store := d; invoked := [] |}.

(** * Facts on binary64 numbers *)

Section FloatFacts.

Local Open Scope Z_scope.

Lemma Prim2SF_inj (x y : float) : Prim2SF x = Prim2SF y -> x = y.
Proof.
  intros H. rewrite <- (SF2Prim_Prim2SF x), <- (SF2Prim_Prim2SF y), H.
  reflexivity.
Qed.

Lemma SFcompare_antisym (x y : spec_float) :
  SFcompare y x = option_map CompOpp (SFcompare x y).
Proof.
  destruct x as [sx|sx| |sx mx ex], y as [sy|sy| |sy my ey]; cbn;
    try reflexivity;
    try (destruct sx; reflexivity); try (destruct sy; reflexivity);
    try (destruct sx, sy; reflexivity).
  destruct sx, sy; cbn; try reflexivity;
    rewrite (Z.compare_antisym ey ex);
    destruct (ey ?= ex) eqn:E; cbn; try reflexivity.
  - rewrite CompOpp_involutive. f_equal. symmetry. exact (ZC4 mx my).
  - f_equal. exact (ZC4 my mx).
Qed.

(** [<] on floats is asymmetric, NaN included. *)
Lemma ltb_asym (x y : float) :
  PrimFloat.ltb x y = true -> PrimFloat.ltb y x = false.
Proof.
  rewrite !ltb_spec. unfold SFltb.
  rewrite (SFcompare_antisym (Prim2SF x) (Prim2SF y)).
  destruct (SFcompare (Prim2SF x) (Prim2SF y)) as [[]|]; cbn; congruence.
Qed.

Lemma eqb_not_ltb (x y : float) :
  PrimFloat.eqb x y = true -> PrimFloat.ltb x y = false.
Proof.
  rewrite eqb_spec, ltb_spec. unfold SFeqb, SFltb.
  destruct (SFcompare (Prim2SF x) (Prim2SF y)) as [[]|]; congruence.
Qed.

(** Two numbers that are not NaN are comparable. *)
Lemma not_ltb_leb (x y : float) :
  PrimFloat.is_nan x = false -> PrimFloat.is_nan y = false ->
  PrimFloat.ltb x y = false -> PrimFloat.leb y x = true.
Proof.
  unfold is_nan. rewrite !eqb_spec, ltb_spec, leb_spec.
  unfold SFeqb, SFltb, SFleb.
  rewrite (SFcompare_antisym (Prim2SF x) (Prim2SF y)).
  destruct (Prim2SF x) as [sx|sx| |sx mx ex],
           (Prim2SF y) as [sy|sy| |sy my ey]; cbn;
    try discriminate; try reflexivity;
    try (destruct sx; cbn; congruence); try (destruct sy; cbn; congruence);
    try (destruct sx, sy; cbn; congruence).
  destruct sx, sy; cbn; try congruence;
    destruct (ex ?= ey); cbn; try congruence;
    destruct (Pos.compare_cont Eq mx my); cbn; congruence.
Qed.

(** IEEE equality holds of a number and itself, and of the two zeros. *)
Lemma SFeqb_cases (x y : spec_float) :
  SFeqb x y = true ->
  x = y \/ exists sx sy, x = S754_zero sx /\ y = S754_zero sy.
Proof.
  unfold SFeqb.
  destruct x as [sx|sx| |sx mx ex], y as [sy|sy| |sy my ey]; cbn;
    try discriminate;
    try (destruct sx; discriminate); try (destruct sy; discriminate).
  - intros _. right. exists sx, sy. split; reflexivity.
  - destruct sx, sy; try discriminate; intros _; left; reflexivity.
  - destruct sx, sy; try discriminate;
      destruct (ex ?= ey) eqn:E; try discriminate;
      destruct (Pos.compare_cont Eq mx my) eqn:F; try discriminate;
      intros _; left;
      apply Z.compare_eq in E; apply Pos.compare_eq in F; subst; reflexivity.
Qed.

(** Equal prices give the same score: the sign of a zero price is lost when
    the modifier is subtracted. *)
Lemma score_of_equal_prices (p1 p2 n k : float) sk mk ek :
  PrimFloat.eqb p1 p2 = true ->
  Prim2SF k = S754_finite sk mk ek ->
  (p1 * n - k = p2 * n - k)%float.
Proof.
  rewrite eqb_spec. intros H Hk.
  destruct (SFeqb_cases _ _ H) as [E | (s1 & s2 & E1 & E2)].
  - apply Prim2SF_inj in E. subst. reflexivity.
  - apply Prim2SF_inj. rewrite !sub_spec, !mul_spec, E1, E2, Hk.
    destruct (Prim2SF n) as [sn|sn| |sn mn en]; reflexivity.
Qed.

Lemma sub_self (x : float) :
  Prim2SF (x - x)%float = S754_zero false \/ Prim2SF (x - x)%float = S754_nan.
Proof.
  rewrite sub_spec.
  destruct (Prim2SF x) as [s|s| |s m e]; cbn.
  - left. destruct s; reflexivity.
  - right. destruct s; reflexivity.
  - right. reflexivity.
  - left. unfold SF64sub, SFsub. rewrite Z.sub_diag. reflexivity.
Qed.

(** The delta of two equal scores is 0 or NaN: no number of the unit
    interval is below it. *)
Lemma delta_of_equal_scores (s r h : float) mh eh :
  Prim2SF h = S754_finite false mh eh ->
  PrimFloat.leb 0 r = true ->
  PrimFloat.ltb r (abs (s - s) / h) = false.
Proof.
  intros Hh. rewrite leb_spec, ltb_spec, div_spec, abs_spec, Hh.
  change (Prim2SF 0) with (S754_zero false).
  destruct (sub_self s) as [-> | ->]; cbn.
  - unfold SFleb, SFltb.
    destruct (Prim2SF r) as [sr|sr| |sr mr er]; cbn; try reflexivity;
      destruct sr; cbn; congruence.
  - intros _. unfold SFltb. destruct (Prim2SF r); reflexivity.
Qed.

(** ** Rounding to binary64 *)

Lemma digits2_pos_size (m : positive) : digits2_pos m = Pos.size m.
Proof. induction m; cbn; congruence. Qed.

Lemma Zdigits2_log2 (m : Z) : 0 < m -> Zdigits2 m = Z.log2 m + 1.
Proof.
  destruct m as [|p|p]; try lia. intros _.
  destruct p; cbn; rewrite ?digits2_pos_size; lia.
Qed.

Lemma shr_1_m (r : shr_record) :
  0 <= shr_m r -> shr_m (shr_1 r) = shr_m r / 2.
Proof.
  rewrite <- Z.div2_div.
  destruct r as [m b s]. cbn [shr_m]. intros H.
  destruct m as [|[p|p|]|p]; cbn; try reflexivity; lia.
Qed.

Lemma iter_shr_1_m (n : positive) (r : shr_record) :
  0 <= shr_m r -> shr_m (iter_pos shr_1 n r) = shr_m r / 2 ^ Zpos n.
Proof.
  revert r. induction n as [n IH|n IH|]; intros r H; cbn [iter_pos].
  - assert (P : 0 < 2 ^ Zpos n) by (apply Z.pow_pos_nonneg; lia).
    assert (H1 : 0 <= shr_m (shr_1 r)).
    { rewrite shr_1_m by exact H. apply Z.div_pos; lia. }
    assert (H2 : 0 <= shr_m (iter_pos shr_1 n (shr_1 r))).
    { rewrite IH by exact H1. apply Z.div_pos; lia. }
    rewrite IH by exact H2. rewrite IH by exact H1. rewrite shr_1_m by exact H.
    rewrite !Z.div_div by lia.
    f_equal. replace (Zpos n~1) with (1 + Zpos n + Zpos n) by lia.
    rewrite !Z.pow_add_r by lia. ring.
  - assert (P : 0 < 2 ^ Zpos n) by (apply Z.pow_pos_nonneg; lia).
    assert (H2 : 0 <= shr_m (iter_pos shr_1 n r)).
    { rewrite IH by exact H. apply Z.div_pos; lia. }
    rewrite IH by exact H2. rewrite IH by exact H.
    rewrite !Z.div_div by lia.
    f_equal. replace (Zpos n~0) with (Zpos n + Zpos n) by lia.
    rewrite !Z.pow_add_r by lia. ring.
  - rewrite shr_1_m by exact H. reflexivity.
Qed.

Lemma shr_record_of_loc_m (m : Z) (l : location) :
  shr_m (shr_record_of_loc m l) = m.
Proof. destruct l as [|[]]; reflexivity. Qed.

(** The mantissa and the exponent after [shr]. *)
Lemma shr_spec (r : shr_record) (e n : Z) :
  0 <= shr_m r ->
  shr_m (fst (shr r e n)) = shr_m r / 2 ^ Z.max 0 n
  /\ snd (shr r e n) = e + Z.max 0 n.
Proof.
  intros H. destruct n as [|p|p]; cbn [shr fst snd].
  - rewrite Z.div_1_r. lia.
  - rewrite iter_shr_1_m by exact H. rewrite Z.max_r by lia. split; reflexivity.
  - cbn. rewrite Z.div_1_r. lia.
Qed.

(** A binary64 exponent function. *)
Lemma fexp64 (e : Z) : fexp prec emax e = Z.max (e - 53) (-1074).
Proof. reflexivity. Qed.

Lemma shr_fexp_spec (m e : Z) (l : location) :
  0 < m -> -1074 < Zdigits2 m + e ->
  let r := shr_fexp prec emax m e l in
  0 < shr_m (fst r)
  /\ Zdigits2 (shr_m (fst r)) + snd r = Zdigits2 m + e
  /\ snd r = Z.max e (fexp prec emax (Zdigits2 m + e)).
Proof.
  intros Hm Hd. cbv zeta. unfold shr_fexp.
  set (n := fexp prec emax (Zdigits2 m + e) - e).
  destruct (shr_spec (shr_record_of_loc m l) e n) as (A & B).
  { rewrite shr_record_of_loc_m. lia. }
  rewrite shr_record_of_loc_m in A. rewrite A, B. clear A B.
  assert (Hn : n < Zdigits2 m).
  { subst n. rewrite fexp64. lia. }
  pose proof (Zdigits2_log2 m Hm) as Dm.
  pose proof (Z.log2_nonneg m) as Lm.
  assert (P : 0 < 2 ^ Z.max 0 n) by (apply Z.pow_pos_nonneg; lia).
  assert (Q : 2 ^ Z.max 0 n <= m).
  { apply Z.log2_le_pow2; lia. }
  assert (R : 0 < m / 2 ^ Z.max 0 n).
  { apply Z.div_str_pos. lia. }
  split; [exact R|]. split; [|subst n; rewrite fexp64; lia].
  rewrite (Zdigits2_log2 _ R).
  rewrite <- Z.shiftr_div_pow2 by lia.
  rewrite Z.log2_shiftr by exact Hm. lia.
Qed.

Lemma round_nearest_even_bounds (m : Z) (l : location) :
  m <= round_nearest_even m l <= m + 1.
Proof.
  destruct l as [|[]]; cbn; try lia. destruct (Z.even m); lia.
Qed.

Lemma shr_fexp_nonneg (m e : Z) (l : location) :
  0 <= m -> 0 <= shr_m (fst (shr_fexp prec emax m e l)).
Proof.
  intros H. unfold shr_fexp.
  destruct (shr_spec (shr_record_of_loc m l) e
              (fexp prec emax (Zdigits2 m + e) - e)) as (A & _).
  { rewrite shr_record_of_loc_m. exact H. }
  rewrite A, shr_record_of_loc_m.
  apply Z.div_pos; [exact H|]. apply Z.pow_pos_nonneg; lia.
Qed.

(** Rounding a mantissa that is not negative never gives NaN. *)
Lemma binary_round_aux_not_nan (s : bool) (mx ex : Z) (lx : location) :
  0 <= mx -> binary_round_aux prec emax s mx ex lx <> S754_nan.
Proof.
  intros H. unfold binary_round_aux.
  pose proof (shr_fexp_nonneg mx ex lx H) as A.
  destruct (shr_fexp prec emax mx ex lx) as [mrs' e']. cbn [fst] in A.
  pose proof (round_nearest_even_bounds (shr_m mrs') (loc_of_shr_record mrs')) as B.
  set (m2 := round_nearest_even (shr_m mrs') (loc_of_shr_record mrs')) in *.
  assert (C : 0 <= m2) by lia.
  pose proof (shr_fexp_nonneg m2 e' loc_Exact C) as D.
  destruct (shr_fexp prec emax m2 e' loc_Exact) as [mrs'' e'']. cbn [fst] in D.
  destruct (shr_m mrs'') as [|p|p]; try discriminate; try lia.
  destruct (e'' <=? emax - prec); discriminate.
Qed.

(** Rounding a positive mantissa within the binary64 range gives a finite
    number that is not zero. *)
Lemma binary_round_aux_finite (s : bool) (mx ex : Z) (lx : location) :
  0 < mx -> -1074 < Zdigits2 mx + ex -> ex <= 971 ->
  Zdigits2 mx + ex <= 1023 ->
  exists m e, binary_round_aux prec emax s mx ex lx = S754_finite s m e.
Proof.
  intros Hm Hlo He Hhi. unfold binary_round_aux.
  destruct (shr_fexp_spec mx ex lx Hm Hlo) as (A1 & A2 & A3).
  destruct (shr_fexp prec emax mx ex lx) as [mrs' e']. cbn [fst snd] in A1, A2, A3.
  pose proof (round_nearest_even_bounds (shr_m mrs') (loc_of_shr_record mrs')) as B.
  set (m2 := round_nearest_even (shr_m mrs') (loc_of_shr_record mrs')) in *.
  assert (C : 0 < m2) by lia.
  assert (D : Zdigits2 (shr_m mrs') <= Zdigits2 m2 <= Zdigits2 (shr_m mrs') + 1).
  { rewrite (Zdigits2_log2 _ C), (Zdigits2_log2 _ A1).
    pose proof (Z.log2_le_mono (shr_m mrs') m2 (proj1 B)).
    pose proof (Z.log2_le_mono m2 (Z.succ (shr_m mrs')) ltac:(lia)).
    pose proof (Z.log2_succ_le (shr_m mrs')). lia. }
  destruct (shr_fexp_spec m2 e' loc_Exact C ltac:(lia)) as (E1 & E2 & E3).
  destruct (shr_fexp prec emax m2 e' loc_Exact) as [mrs'' e''].
  cbn [fst snd] in E1, E2, E3.
  destruct (shr_m mrs'') as [|p|p]; try lia.
  assert (F : (e'' <=? emax - prec) = true).
  { apply Z.leb_le. rewrite fexp64 in A3, E3. change (emax - prec) with 971. lia. }
  rewrite F. eexists. eexists. reflexivity.
Qed.

Lemma digits2_pos_iter_xO (p k : positive) :
  digits2_pos (Pos.iter xO p k) = (digits2_pos p + k)%positive.
Proof.
  induction k as [|k IH] using Pos.peano_ind.
  - cbn. lia.
  - rewrite Pos.iter_succ. cbn [digits2_pos]. rewrite IH. lia.
Qed.

(** The binary64 value of a positive integer below 2^63 is finite and not
    zero. *)
Lemma binary_round_int_finite (p : positive) :
  Zpos p < 2 ^ 63 ->
  exists m e, binary_round prec emax false p 0 = S754_finite false m e.
Proof.
  intros H.
  assert (D : 1 <= Zpos (digits2_pos p) <= 63).
  { change (Zpos (digits2_pos p)) with (Zdigits2 (Zpos p)).
    rewrite Zdigits2_log2 by lia.
    pose proof (Z.log2_nonneg (Zpos p)).
    pose proof (proj1 (Z.log2_lt_pow2 (Zpos p) 63 ltac:(lia)) H). lia. }
  unfold binary_round, shl_align. rewrite fexp64.
  destruct (Z.max (Zpos (digits2_pos p) + 0 - 53) (-1074) - 0) as [|k|k] eqn:E;
    apply binary_round_aux_finite; cbn [Zdigits2];
    rewrite ?digits2_pos_iter_xO; lia.
Qed.

Lemma Prim2SF_of_int (z : Z) :
  0 <= z < 2 ^ 63 ->
  Prim2SF (SF2Prim (binary_normalize prec emax z 0 false))
  = binary_normalize prec emax z 0 false.
Proof.
  intros H.
  assert (E : Uint63Axioms.to_Z (Uint63.of_Z z) = z).
  { rewrite Uint63.of_Z_spec. apply Z.mod_small. exact H. }
  rewrite <- E at 1. rewrite <- of_uint63_spec, SF2Prim_Prim2SF.
  rewrite of_uint63_spec, E. reflexivity.
Qed.

(** ** Numbers that are not NaN *)

Lemma SFcompare_refl (x : spec_float) :
  x <> S754_nan -> SFcompare x x = Some Eq.
Proof.
  destruct x as [s|s| |s m e]; cbn; try congruence; intros _.
  - destruct s; reflexivity.
  - destruct s; rewrite Z.compare_refl, Pos.compare_cont_refl; reflexivity.
Qed.

Lemma is_nan_false (x : float) :
  Prim2SF x <> S754_nan -> PrimFloat.is_nan x = false.
Proof.
  intros H. unfold PrimFloat.is_nan. rewrite eqb_spec. unfold SFeqb.
  rewrite (SFcompare_refl _ H). reflexivity.
Qed.

(** The quotient of a number by a finite number other than zero is not
    NaN. *)
Lemma SFdiv_not_nan (x : spec_float) (s : bool) (m : positive) (e : Z) :
  x <> S754_nan -> SFdiv prec emax x (S754_finite s m e) <> S754_nan.
Proof.
  intros H. destruct x as [sx|sx| |sx mx ex]; cbn [SFdiv]; try congruence.
  unfold SFdiv_core_binary.
  match goal with
  | |- context [Z.div_eucl ?a ?b] =>
      assert (Q : 0 <= a / b);
      [ | unfold Z.div in Q; destruct (Z.div_eucl a b) as [q r] ]
  end.
  - apply Z.div_pos; [|lia].
    match goal with
    | |- 0 <= match ?k with _ => _ end => destruct k
    end; try lia.
    apply Z.shiftl_nonneg. lia.
  - apply binary_round_aux_not_nan. exact Q.
Qed.

Lemma SFmul_not_nan (x : spec_float) (s : bool) (m : positive) (e : Z) :
  x <> S754_nan -> SFmul prec emax x (S754_finite s m e) <> S754_nan.
Proof.
  intros H. destruct x as [sx|sx| |sx mx ex]; cbn [SFmul]; try congruence.
  apply binary_round_aux_not_nan. lia.
Qed.

(** The binary64 value of a counter. *)
Lemma Prim2SF_float_of_int (z : Z) :
  0 <= z < 2 ^ 63 ->
  Prim2SF (float_of_int z) = binary_normalize prec emax z 0 false.
Proof. apply Prim2SF_of_int. Qed.

Lemma float_of_int_positive (z : Z) :
  0 < z < 2 ^ 63 ->
  exists m e, Prim2SF (float_of_int z) = S754_finite false m e.
Proof.
  intros H. rewrite Prim2SF_float_of_int by lia.
  destruct z as [|p|p]; try lia. cbn [binary_normalize].
  apply binary_round_int_finite. lia.
Qed.

Lemma float_of_int_not_nan (z : Z) :
  0 <= z < 2 ^ 63 -> Prim2SF (float_of_int z) <> S754_nan.
Proof.
  intros H. destruct (Z.eq_dec z 0) as [->|N].
  - vm_compute. discriminate.
  - destruct (float_of_int_positive z ltac:(lia)) as (m & e & E).
    rewrite E. discriminate.
Qed.

(** ** The order of the numbers is transitive *)

Ltac compare_cases :=
  repeat match goal with
  | H : context [Pos.compare_cont Eq ?a ?b] |- _ =>
      change (Pos.compare_cont Eq a b) with (Pos.compare a b) in *;
      destruct (Pos.compare_spec a b)
  | |- context [Pos.compare_cont Eq ?a ?b] =>
      change (Pos.compare_cont Eq a b) with (Pos.compare a b) in *;
      destruct (Pos.compare_spec a b)
  | H : context [Z.compare ?a ?b] |- _ => destruct (Z.compare_spec a b)
  | |- context [Z.compare ?a ?b] => destruct (Z.compare_spec a b)
  end.

Lemma SFleb_trans (x y z : spec_float) :
  SFleb x y = true -> SFleb y z = true -> SFleb x z = true.
Proof.
  unfold SFleb, SFcompare.
  destruct x as [sx|sx| |sx mx ex], y as [sy|sy| |sy my ey],
           z as [sz|sz| |sz mz ez];
    try discriminate; try reflexivity;
    try destruct sx; try destruct sy; try destruct sz;
    try discriminate; try reflexivity;
    intros H1 H2; compare_cases; subst;
    try discriminate; try reflexivity; try lia.
Qed.

Lemma leb_trans (x y z : float) :
  PrimFloat.leb x y = true -> PrimFloat.leb y z = true ->
  PrimFloat.leb x z = true.
Proof. rewrite !leb_spec. apply SFleb_trans. Qed.

End FloatFacts.

(** * The kitchen model *)

Section KitchenFacts.

Local Open Scope Z_scope.

(** ** The ids that bind *)

Lemma is_sqlite_integer_spec (z : Z) :
  is_sqlite_integer z = true <-> - 2 ^ 63 <= z < 2 ^ 63.
Proof.
  unfold is_sqlite_integer. rewrite andb_true_iff, Z.leb_le, Z.ltb_lt.
  reflexivity.
Qed.

Lemma fetchone_id_binds (meal_id : Z) (d : database) (r : row) :
  ids_in_range (meals d) = true ->
  fetchone_id meal_id d = Some r ->
  is_sqlite_integer meal_id = true.
Proof.
  unfold ids_in_range, fetchone_id. intros Hall Hf.
  apply find_some in Hf. destruct Hf as (Hin & He).
  apply Z.eqb_eq in He. subst meal_id.
  rewrite forallb_forall in Hall. exact (Hall r Hin).
Qed.

(** X17: a parameter that does not bind.  For an id beyond the integers of
    sqlite, [update_meal_stats] (with any outcome), [get_meal_by_id] and
    [delete_meal] raise OverflowError before their SELECT runs; for a price
    that is an [int] above 0 beyond the integers of sqlite, and a valid
    difficulty, [create_meal] raises OverflowError before its INSERT runs.
    The database is left as it was: no statement is run and no row
    written. *)
Theorem unbound_parameter_raises_overflow (z : Z) (d : database) :
  ids_in_range (meals d) = true ->
  is_sqlite_integer z = false ->
  (forall result0, update_meal_stats z result0 d = (Raise OverflowError, d))
  /\ get_meal_by_id z d = (Raise OverflowError, d)
  /\ delete_meal z d = (Raise OverflowError, d)
  /\ (forall meal0 cuisine0 difficulty0,
        0 < z ->
        str_in difficulty0 ["LOW"; "MED"; "HIGH"]%string = true ->
        create_meal meal0 cuisine0 (PyInt z) difficulty0 d
        = (Raise OverflowError, d)).
Proof.
  intros Hall Hb.
  assert (Hf : fetchone_id z d = None).
  { destruct (fetchone_id z d) as [r|] eqn:Hf; [|reflexivity].
    rewrite (fetchone_id_binds z d r Hall Hf) in Hb. discriminate. }
  unfold update_meal_stats, get_meal_by_id, delete_meal.
  rewrite Hf, Hb. repeat split.
  intros meal0 cuisine0 difficulty0 Hz Hd. unfold create_meal.
  cbn [is_int_or_float le_zero sqlite_binds negb orb].
  apply Z.leb_gt in Hz. rewrite Hz, Hd, Hb. reflexivity.
Qed.

Lemma unbound_parameter_raises_overflow_witness :
  update_meal_stats (2 ^ 63) "win" two_meals = (Raise OverflowError, two_meals)
  /\ create_meal "Sushi" "Japanese" (PyInt (2 ^ 63)) "HIGH" two_meals
     = (Raise OverflowError, two_meals).
Proof.
  destruct (unbound_parameter_raises_overflow (2 ^ 63) two_meals
              eq_refl eq_refl) as (Hu & _ & _ & Hc).
  split; [exact (Hu "win"%string) | apply Hc; [lia | reflexivity]].
Defined.


(** ** update_meal_stats, get_meal_by_id and delete_meal on a deleted record *)

(** C8: on an id whose record exists and has the deleted flag set, each of
    [update_meal_stats] (with any outcome), [get_meal_by_id] and
    [delete_meal] raises the ValueError "Meal with ID .. has been deleted";
    the rows of the table are left as they were, and the only statement run
    is the SELECT of the lookup. *)
Theorem deleted_record_is_gone (d : database) (meal_id : Z) (r : row)
    (result0 : string) :
  fetchone_id meal_id d = Some r ->
  r_deleted r = true ->
  update_meal_stats meal_id result0 d
    = (Raise (ValueError (IdDeleted meal_id)), execute (SelectDeleted meal_id) d)
  /\ get_meal_by_id meal_id d
    = (Raise (ValueError (IdDeleted meal_id)), execute (SelectById meal_id) d)
  /\ delete_meal meal_id d
    = (Raise (ValueError (IdDeleted meal_id)), execute (SelectDeleted meal_id) d)
  /\ meals (snd (update_meal_stats meal_id result0 d)) = meals d
  /\ meals (snd (get_meal_by_id meal_id d)) = meals d
  /\ meals (snd (delete_meal meal_id d)) = meals d
  /\ message_text (IdDeleted meal_id)
     = Some ("Meal with ID " ++ str_of_int meal_id ++ " has been deleted")%string.
Proof.
  intros Hrow Hdel.
  unfold update_meal_stats, get_meal_by_id, delete_meal.
  rewrite Hrow, Hdel. cbn. repeat split; reflexivity.
Qed.

Lemma deleted_record_is_gone_witness :
  update_meal_stats 2 "win" burger_deleted
    = (Raise (ValueError (IdDeleted 2)), execute (SelectDeleted 2) burger_deleted)
  /\ meals (snd (delete_meal 2 burger_deleted)) = meals burger_deleted.
Proof.
  pose proof (deleted_record_is_gone burger_deleted 2 (deleted_row burger) "win"
                eq_refl eq_refl) as H.
  split; [ exact (proj1 H) | exact (proj1 (proj2 (proj2 (proj2 (proj2 (proj2 H)))))) ].
Defined.

(** ** update_meal_stats checks the record before the outcome *)

(** C10: [update_meal_stats] looks the record up first.  For an id (an
    integer of sqlite) that no record has it raises "not found", and for a
    deleted record "has been deleted", whatever the outcome string is; only
    for a record that exists and is not deleted is the outcome examined, and
    an outcome other than 'win' and 'loss' then raises "Invalid result" with
    the rows unchanged. *)
Theorem update_meal_stats_checks_record_first (d : database) (meal_id : Z)
    (result0 : string) :
  (- 2 ^ 63 <= meal_id < 2 ^ 63 ->
   fetchone_id meal_id d = None ->
     update_meal_stats meal_id result0 d
       = (Raise (ValueError (IdNotFound meal_id)),
          execute (SelectDeleted meal_id) d))
  /\ (forall r, fetchone_id meal_id d = Some r -> r_deleted r = true ->
     update_meal_stats meal_id result0 d
       = (Raise (ValueError (IdDeleted meal_id)),
          execute (SelectDeleted meal_id) d))
  /\ (forall r, fetchone_id meal_id d = Some r -> r_deleted r = false ->
     result0 <> "win"%string -> result0 <> "loss"%string ->
     update_meal_stats meal_id result0 d
       = (Raise (ValueError (InvalidResult result0)),
          execute (SelectDeleted meal_id) d)
     /\ meals (snd (update_meal_stats meal_id result0 d)) = meals d)
  /\ (forall e, fst (update_meal_stats meal_id result0 d)
               = Raise (ValueError (InvalidResult e)) ->
     exists r, fetchone_id meal_id d = Some r /\ r_deleted r = false).
Proof.
  unfold update_meal_stats. repeat split.
  - intros Hb ->. rewrite (proj2 (is_sqlite_integer_spec meal_id) Hb).
    reflexivity.
  - intros r -> ->. reflexivity.
  - rewrite H, H0.
    apply String.eqb_neq in H1, H2. rewrite H1, H2. reflexivity.
  - rewrite H, H0.
    apply String.eqb_neq in H1, H2. rewrite H1, H2. reflexivity.
  - intros e. destruct (fetchone_id meal_id d) as [r|].
    + destruct (r_deleted r) eqn:Hd; [discriminate|].
      intros _. exists r. split; [reflexivity | exact Hd].
    + destruct (is_sqlite_integer meal_id); discriminate.
Qed.

Lemma update_meal_stats_checks_record_first_witness :
  update_meal_stats 7 "draw" two_meals
    = (Raise (ValueError (IdNotFound 7)), execute (SelectDeleted 7) two_meals)
  /\ update_meal_stats 2 "draw" burger_deleted
    = (Raise (ValueError (IdDeleted 2)), execute (SelectDeleted 2) burger_deleted)
  /\ update_meal_stats 2 "draw" two_meals
    = (Raise (ValueError (InvalidResult "draw")),
       execute (SelectDeleted 2) two_meals).
Proof.
  split; [|split].
  - refine (proj1 (update_meal_stats_checks_record_first two_meals 7 "draw")
              _ eq_refl); lia.
  - exact (proj1 (proj2 (update_meal_stats_checks_record_first
                           burger_deleted 2 "draw"))
             (deleted_row burger) eq_refl eq_refl).
  - refine (proj1 (proj1 (proj2 (proj2 (update_meal_stats_checks_record_first
                                   two_meals 2 "draw")))
                     (fresh_row burger) eq_refl eq_refl _ _)); discriminate.
Defined.

(** ** The leaderboard *)

Lemma is_counter_range (z : Z) : is_counter z = true -> 0 <= z < 2 ^ 63.
Proof. unfold is_counter. lia. Qed.

(** The column win_pct of a record with a battle count above 0 is a number:
    sqlite finds neither a division by zero nor a NaN. *)
Lemma win_pct_column_number (r : row) :
  is_counter (r_wins r) = true -> is_counter (r_battles r) = true ->
  0 < r_battles r ->
  win_pct_column r = Some (win_ratio (r_wins r) (r_battles r))
  /\ PrimFloat.is_nan (win_ratio (r_wins r) (r_battles r)) = false.
Proof.
  intros Hw Hb Hpos.
  apply is_counter_range in Hw, Hb.
  destruct (float_of_int_positive (r_battles r) ltac:(lia)) as (m & e & Eb).
  assert (Nx : Prim2SF (float_of_int (r_wins r) * 1)%float <> S754_nan).
  { rewrite mul_spec.
    change (Prim2SF 1) with (S754_finite false 4503599627370496 (-52)).
    apply SFmul_not_nan. apply float_of_int_not_nan. exact Hw. }
  assert (Nq : Prim2SF (win_ratio (r_wins r) (r_battles r)) <> S754_nan).
  { unfold win_ratio. rewrite div_spec, Eb. apply SFdiv_not_nan. exact Nx. }
  assert (Z0 : PrimFloat.eqb (float_of_int (r_battles r)) 0 = false).
  { rewrite eqb_spec, Eb. reflexivity. }
  split; [|apply is_nan_false; exact Nq].
  unfold win_pct_column, sql_mul, sql_div, sql_real.
  rewrite (is_nan_false _ Nx), Z0.
  fold (win_ratio (r_wins r) (r_battles r)).
  rewrite (is_nan_false _ Nq). reflexivity.
Qed.

Lemma to_entry_number (r : row) :
  win_pct_column r = Some (win_ratio (r_wins r) (r_battles r)) ->
  to_entry r = Ok (leaderboard_entry r).
Proof. intros H. unfold to_entry. rewrite H. reflexivity. Qed.

Lemma to_entries_numbers (rows : list row) :
  Forall (fun r => win_pct_column r
                   = Some (win_ratio (r_wins r) (r_battles r))) rows ->
  to_entries rows = Ok (map leaderboard_entry rows).
Proof.
  induction 1 as [|r rows Hr _ IH]; cbn [to_entries map].
  - reflexivity.
  - rewrite (to_entry_number r Hr), IH. reflexivity.
Qed.

(** *** ORDER BY ... DESC *)

Section OrderByFacts.
Context {A : Type}.
Variable lt : A -> A -> bool.
Hypothesis lt_asym : forall a b, lt a b = true -> lt b a = false.

Lemma insert_desc_perm (x : A) (l : list A) :
  Permutation (insert_desc lt x l) (x :: l).
Proof.
  induction l as [|y t IH]; cbn [insert_desc].
  - apply Permutation_refl.
  - destruct (lt x y).
    + apply perm_trans with (y :: x :: t).
      * apply perm_skip. exact IH.
      * apply perm_swap.
    + apply Permutation_refl.
Qed.

Lemma order_by_desc_perm (l : list A) :
  Permutation (order_by_desc lt l) l.
Proof.
  induction l as [|x t IH]; cbn.
  - apply perm_nil.
  - apply perm_trans with (x :: order_by_desc lt t).
    + apply insert_desc_perm.
    + apply perm_skip. exact IH.
Qed.

(** Sorted in descending order: no element is below the next one. *)

Lemma insert_desc_HdRel (a x : A) (l : list A) :
  lt a x = false -> HdRel (fun a b => lt a b = false) a l ->
  HdRel (fun a b => lt a b = false) a (insert_desc lt x l).
Proof.
  intros Hax Hl. destruct l as [|y t]; cbn [insert_desc].
  - constructor. exact Hax.
  - destruct (lt x y).
    + constructor. inversion Hl; assumption.
    + constructor. exact Hax.
Qed.

Lemma insert_desc_sorted (x : A) (l : list A) :
  Sorted (fun a b => lt a b = false) l ->
  Sorted (fun a b => lt a b = false) (insert_desc lt x l).
Proof.
  induction 1 as [|y t St IH Hd]; cbn [insert_desc].
  - repeat constructor.
  - destruct (lt x y) eqn:E.
    + constructor; [exact IH|].
      apply insert_desc_HdRel; [|exact Hd].
      apply lt_asym. exact E.
    + constructor; [constructor; assumption|].
      constructor. exact E.
Qed.

Lemma order_by_desc_sorted (l : list A) :
  Sorted (fun a b => lt a b = false) (order_by_desc lt l).
Proof.
  induction l as [|x t IH]; cbn.
  - constructor.
  - apply insert_desc_sorted. exact IH.
Qed.
End OrderByFacts.

Lemma Sorted_map_on {A B : Type} (P : A -> Prop) (R : A -> A -> Prop)
    (R' : B -> B -> Prop) (f : A -> B) (l : list A) :
  (forall a b, P a -> P b -> R a b -> R' (f a) (f b)) ->
  Forall P l -> Sorted R l -> Sorted R' (map f l).
Proof.
  intros HR HP HS. induction HS as [|a l HS IH Hd]; cbn [map].
  - constructor.
  - inversion HP as [|? ? Pa Pl]; subst.
    constructor; [apply IH; exact Pl|].
    destruct Hd as [|b l' Hab]; cbn [map]; constructor.
    inversion Pl; subst. apply HR; assumption.
Qed.

Lemma sql_lt_asym (a b : option float) :
  sql_lt a b = true -> sql_lt b a = false.
Proof.
  destruct a as [x|], b as [y|]; cbn; try congruence. apply ltb_asym.
Qed.

(** The records of the leaderboard, in the order of the query. *)
Lemma select_leaderboard_rows (by_win_pct : bool) (rows : list row) :
  counters_in_range rows = true ->
  let selected := select_leaderboard by_win_pct rows in
  Permutation selected (filter on_leaderboard rows)
  /\ Forall (fun r => win_pct_column r
                      = Some (win_ratio (r_wins r) (r_battles r))
                      /\ PrimFloat.is_nan (win_ratio (r_wins r) (r_battles r))
                         = false) selected.
Proof.
  intros Hc. cbv zeta.
  assert (P : Permutation (select_leaderboard by_win_pct rows)
                (filter on_leaderboard rows)).
  { unfold select_leaderboard. destruct by_win_pct; apply order_by_desc_perm. }
  split; [exact P|].
  apply (Permutation_Forall (Permutation_sym P)).
  apply Forall_forall. intros r Hr.
  apply filter_In in Hr. destruct Hr as (Hin & Hon).
  unfold counters_in_range in Hc. rewrite forallb_forall in Hc.
  specialize (Hc r Hin). apply andb_true_iff in Hc. destruct Hc as (Hw & Hb).
  unfold on_leaderboard in Hon. apply andb_true_iff in Hon.
  destruct Hon as (_ & Hpos). apply Z.ltb_lt in Hpos.
  apply win_pct_column_number; assumption.
Qed.

(** C7: a sort key other than "wins" and "win_pct" makes [get_leaderboard]
    raise "Invalid sort_by parameter" without running a statement.  With
    "wins" or "win_pct" (the counters of the table being integers of sqlite
    that are not negative) it runs the query and returns the records that
    are not deleted and have a battle count above 0, each with
    win_pct = round(wins / battles x 100, 1), in descending order of the
    wins, or of the ratio wins / battles. *)
Theorem get_leaderboard_spec :
  (forall (sort_by : string) (d : database),
     sort_by <> "wins"%string -> sort_by <> "win_pct"%string ->
     get_leaderboard sort_by d
     = (Raise (ValueError (InvalidSortBy sort_by)), d))
  /\ (forall d : database,
     counters_in_range (meals d) = true ->
     exists es,
       get_leaderboard "wins" d
       = (Ok es, execute (SelectLeaderboard "wins") d)
       /\ Permutation es
            (map leaderboard_entry (filter on_leaderboard (meals d)))
       /\ StronglySorted (fun a b => e_wins b <= e_wins a) es)
  /\ (forall d : database,
     counters_in_range (meals d) = true ->
     exists es,
       get_leaderboard "win_pct" d
       = (Ok es, execute (SelectLeaderboard "win_pct") d)
       /\ Permutation es
            (map leaderboard_entry (filter on_leaderboard (meals d)))
       /\ StronglySorted (fun a b =>
                            PrimFloat.leb (win_ratio (e_wins b) (e_battles b))
                                  (win_ratio (e_wins a) (e_battles a))
                    = true) es).
Proof.
  split; [|split].
  - intros sort_by d H1 H2. unfold get_leaderboard.
    apply String.eqb_neq in H1, H2. rewrite H1, H2. reflexivity.
  - intros d Hc.
    destruct (select_leaderboard_rows false (meals d) Hc) as (P & F).
    exists (map leaderboard_entry (select_leaderboard false (meals d))).
    split; [|split].
    + unfold get_leaderboard. cbn [String.eqb Ascii.eqb Bool.eqb].
      rewrite to_entries_numbers; [reflexivity|].
      eapply Forall_impl; [|exact F]. intros r (E & _). exact E.
    + apply Permutation_map. exact P.
    + apply Sorted_StronglySorted; [intros a b c; lia|].
      apply (Sorted_map_on (fun _ => True)
               (fun a b => (r_wins a <? r_wins b) = false)).
      * intros a b _ _ H. cbn. lia.
      * apply Forall_forall. intros; exact I.
      * unfold select_leaderboard.
        apply (order_by_desc_sorted (fun a b => r_wins a <? r_wins b)).
        intros a b H. lia.
  - intros d Hc.
    destruct (select_leaderboard_rows true (meals d) Hc) as (P & F).
    exists (map leaderboard_entry (select_leaderboard true (meals d))).
    split; [|split].
    + unfold get_leaderboard. cbn [String.eqb Ascii.eqb Bool.eqb].
      rewrite to_entries_numbers; [reflexivity|].
      eapply Forall_impl; [|exact F]. intros r (E & _). exact E.
    + apply Permutation_map. exact P.
    + apply Sorted_StronglySorted.
      { intros a b c Hab Hbc. exact (leb_trans _ _ _ Hbc Hab). }
      eapply (Sorted_map_on _
                (fun a b => sql_lt (win_pct_column a) (win_pct_column b)
                            = false)); [|exact F|].
      * intros a b (Ea & Na) (Eb & Nb) H. cbn.
        rewrite Ea, Eb in H. cbn in H.
        apply not_ltb_leb; assumption.
      * unfold select_leaderboard.
        apply (order_by_desc_sorted
                 (fun a b => sql_lt (win_pct_column a) (win_pct_column b))).
        intros a b. apply sql_lt_asym.
Qed.

Lemma get_leaderboard_spec_witness :
  get_leaderboard "price" after_battles
    = (Raise (ValueError (InvalidSortBy "price")), after_battles)
  /\ (exists es,
       get_leaderboard "win_pct" after_battles
       = (Ok es, execute (SelectLeaderboard "win_pct") after_battles)
       /\ Permutation es
            (map leaderboard_entry
               (filter on_leaderboard (meals after_battles)))
       /\ StronglySorted (fun a b =>
                            PrimFloat.leb (win_ratio (e_wins b) (e_battles b))
                                  (win_ratio (e_wins a) (e_battles a))
                    = true) es).
Proof.
  split.
  - apply (proj1 get_leaderboard_spec); discriminate.
  - exact (proj2 (proj2 get_leaderboard_spec) after_battles eq_refl).
Defined.

(** ** Creating a meal *)

(** [create_meal] refuses a price that is not a number or is not above 0,
    and a difficulty other than LOW, MED and HIGH, before it touches the
    database. *)
Lemma create_meal_validates (meal0 cuisine0 : string) (price0 : object)
    (difficulty0 : string) (d : database) :
  is_int_or_float price0 = false \/ le_zero price0 = true
  \/ str_in difficulty0 ["LOW"; "MED"; "HIGH"]%string = false ->
  exists m,
    create_meal meal0 cuisine0 price0 difficulty0 d = (Raise (ValueError m), d)
    /\ (m = InvalidPrice price0 \/ m = InvalidDifficulty difficulty0).
Proof.
  intros H. unfold create_meal.
  destruct (negb (is_int_or_float price0) || le_zero price0) eqn:E.
  - eexists. split; [reflexivity|]. left. reflexivity.
  - apply orb_false_iff in E. destruct E as (E1 & E2).
    apply negb_false_iff in E1.
    destruct H as [H | [H | H]]; try congruence.
    rewrite H. cbn. eexists. split; [reflexivity|]. right. reflexivity.
Qed.

(** What [Meal.__post_init__] lets through: a difficulty of the three, and a
    price that is not below 0. *)
Lemma Meal_init_checks (id0 : Z) (meal0 cuisine0 : string) (price0 : float)
    (difficulty0 : string) (m : Meal) :
  Meal_init id0 meal0 cuisine0 price0 difficulty0 = Ok m ->
  PrimFloat.ltb (price m) 0 = false
  /\ str_in (difficulty m) ["LOW"; "MED"; "HIGH"]%string = true.
Proof.
  unfold Meal_init.
  destruct (PrimFloat.ltb price0 0) eqn:E; [discriminate|].
  destruct (str_in difficulty0 ["LOW"; "MED"; "HIGH"]%string) eqn:F;
    [|discriminate].
  cbn. intros [= <-]. cbn. split; assumption.
Qed.

(** C9: [Meal.__post_init__] tests [price < 0], so a Meal of price 0 is
    constructed, although 0 is not above 0 and [create_meal] refuses the
    same price. *)
Theorem Meal_init_accepts_price_zero :
  Meal_init 1 "Pasta" "Italian" 0 "MED"
  = Ok {| id := 1; meal := "Pasta"; cuisine := "Italian"; price := 0;
          difficulty := "MED" |}
  /\ PrimFloat.leb 0 0 = true
  /\ create_meal "Pasta" "Italian" (PyFloat 0) "MED" two_meals
     = (Raise (ValueError (InvalidPrice (PyFloat 0))), two_meals).
Proof. repeat split. Qed.

End KitchenFacts.


(** * The battle model *)

Section BattleFacts.

Variable Store : Type.
Variable upd : Z -> string -> Store -> result unit * Store.

Local Open Scope float_scope.

Let state := Battle.state Store.

(** ** The score *)

Lemma get_battle_score_eq (c : Meal) (st : state) :
  get_battle_score c st
  = (match difficulty_modifier (difficulty c) with
     | Ok k => Ok (price c
                   * float_of_int (Z.of_nat (String.length (cuisine c)))
                   - float_of_int k)
     | Raise e => Raise e
     end, st).
Proof.
  unfold get_battle_score, bind, lift, ret.
  destruct (difficulty_modifier (difficulty c)); reflexivity.
Qed.

Lemma difficulty_modifier_valid (d : string) :
  str_in d ["LOW"; "MED"; "HIGH"]%string = true ->
  exists k, difficulty_modifier d = Ok k /\ (k = 1 \/ k = 2 \/ k = 3)%Z.
Proof.
  unfold str_in, difficulty_modifier. cbn [existsb].
  destruct (String.eqb d "HIGH") eqn:H1.
  - intros _. exists 1%Z. auto.
  - destruct (String.eqb d "MED") eqn:H2.
    + intros _. exists 2%Z. auto.
    + destruct (String.eqb d "LOW") eqn:H3.
      * intros _. exists 3%Z. auto.
      * cbn. discriminate.
Qed.

(** C2: for a meal whose difficulty is HIGH, MED or LOW, [get_battle_score]
    returns the price times the length of the cuisine, minus 1, 2 or 3; it
    returns this for every state of the model and leaves the state as it
    was. *)
Theorem get_battle_score_formula (st : state) (id0 : Z)
    (meal0 cuisine0 : string) (price0 : float) :
  let len := float_of_int (Z.of_nat (String.length cuisine0)) in
  let with_difficulty d :=
    {| id := id0; meal := meal0; cuisine := cuisine0; price := price0;
       difficulty := d |} in
  get_battle_score (with_difficulty "HIGH"%string) st
    = (Ok (price0 * len - 1), st)
  /\ get_battle_score (with_difficulty "MED"%string) st
    = (Ok (price0 * len - 2), st)
  /\ get_battle_score (with_difficulty "LOW"%string) st
    = (Ok (price0 * len - 3), st).
Proof.
  cbv zeta. rewrite !get_battle_score_eq. cbn [difficulty price cuisine].
  repeat split.
Qed.

(** ** A battle without two combatants *)

(** C5: with fewer than two combatants, [battle] raises the ValueError
    "Two combatants must be prepped for a battle."; the combatants, the store
    and the list of the calls of [update_meal_stats] are left as they
    were. *)
Theorem battle_needs_two_combatants (r : float) (st : state) :
  (List.length (combatants st) < 2)%nat ->
  battle upd r st = (Raise (ValueError TwoCombatants), st)
  /\ message_text TwoCombatants
     = Some "Two combatants must be prepped for a battle."%string.
Proof.
  intros H. split; [|reflexivity].
  unfold battle. apply Nat.ltb_lt in H. rewrite H. reflexivity.
Qed.

(** ** A battle of two combatants *)

(** What [battle] does once the two scores are known. *)
Lemma battle_of_two (r : float) (st : state) (c1 c2 : Meal)
    (rest : list Meal) (s1 s2 : float) :
  combatants st = c1 :: c2 :: rest ->
  fst (get_battle_score c1 st) = Ok s1 ->
  fst (get_battle_score c2 st) = Ok s2 ->
  let delta := abs (s1 - s2) / float_of_int 100 in
  let winner := if r <? delta then c1 else c2 in
  let loser := if r <? delta then c2 else c1 in
  battle upd r st
  = match upd (id winner) "win"%string (store st) with
    | (Raise e, w) =>
        (Raise e, {| combatants := combatants st; store := w;
                     invoked := (id winner, "win"%string) :: invoked st |})
    | (Ok _, w) =>
        let calls := (id loser, "loss"%string)
                     :: (id winner, "win"%string) :: invoked st in
        match upd (id loser) "loss"%string w with
        | (Raise e, w') =>
            (Raise e, {| combatants := combatants st; store := w';
                         invoked := calls |})
        | (Ok _, w') =>
            match list_remove loser (combatants st) with
            | Ok l =>
                (Ok (meal winner), {| combatants := l; store := w';
                                      invoked := calls |})
            | Raise e =>
                (Raise e, {| combatants := combatants st; store := w';
                             invoked := calls |})
            end
        end
    end.
Proof.
  intros Hc H1 H2. cbv zeta.
  pose proof (get_battle_score_eq c1 st) as E1.
  pose proof (get_battle_score_eq c2 st) as E2.
  rewrite E1 in H1. rewrite E2 in H2. cbn [fst] in H1, H2.
  rewrite H1 in E1. rewrite H2 in E2.
  unfold battle. rewrite Hc. cbn [List.length Nat.ltb Nat.leb].
  unfold bind at 1. rewrite E1.
  unfold bind at 1. rewrite E2.
  destruct (r <? abs (s1 - s2) / float_of_int 100);
    unfold bind, call_update_meal_stats, set_combatants, lift, ret;
    cbn [store combatants invoked];
    rewrite Hc;
    match goal with
    | |- context [upd ?i "win"%string ?w] =>
        destruct (upd i "win"%string w) as [[[]|e] w1]
    end; cbn [store combatants invoked]; try reflexivity;
    match goal with
    | |- context [upd ?i "loss"%string ?w] =>
        destruct (upd i "loss"%string w) as [[[]|e] w2]
    end; cbn [store combatants invoked]; try reflexivity;
    match goal with
    | |- context [list_remove ?x ?l] => destruct (list_remove x l)
    end; reflexivity.
Qed.

(** ** Removing the loser *)

Lemma Meal_is_refl (c : Meal) : Meal_is c c = true.
Proof.
  unfold Meal_is.
  rewrite Z.eqb_refl, !String.eqb_refl.
  rewrite (proj2 (FloatAxioms.Leibniz.eqb_spec (price c) (price c)) eq_refl).
  reflexivity.
Qed.

Lemma Meal_is_eq (a b : Meal) : Meal_is a b = true -> a = b.
Proof.
  unfold Meal_is. rewrite !andb_true_iff.
  intros ((((Hi & Hm) & Hc) & Hp) & Hd).
  apply Z.eqb_eq in Hi. apply String.eqb_eq in Hm, Hc, Hd.
  apply FloatAxioms.Leibniz.eqb_spec in Hp.
  destruct a, b; cbn in *; subst; reflexivity.
Qed.

Lemma list_remove_length (x : Meal) (l l' : list Meal) :
  list_remove x l = Ok l' -> List.length l = S (List.length l').
Proof.
  revert l'. induction l as [|y t IH]; intros l'; cbn [list_remove].
  - discriminate.
  - destruct (Meal_is y x || Meal_eq y x).
    + intros [= <-]. reflexivity.
    + destruct (list_remove x t) as [t'|e]; [|discriminate].
      intros [= <-]. cbn [List.length]. rewrite (IH t' eq_refl). reflexivity.
Qed.

Lemma list_remove_first (c : Meal) (l : list Meal) :
  list_remove c (c :: l) = Ok l.
Proof. cbn [list_remove]. rewrite Meal_is_refl. reflexivity. Qed.

Lemma list_remove_second (c1 c2 : Meal) (l : list Meal) :
  list_remove c2 (c1 :: c2 :: l)
  = Ok (if Meal_is c1 c2 || Meal_eq c1 c2 then c2 :: l else c1 :: l).
Proof.
  cbn [list_remove]. rewrite Meal_is_refl.
  destruct (Meal_is c1 c2 || Meal_eq c1 c2); reflexivity.
Qed.

Lemma battle_first_score_raises (r : float) (st : state) (c1 c2 : Meal)
    (rest : list Meal) (e : exn) :
  combatants st = c1 :: c2 :: rest ->
  fst (get_battle_score c1 st) = Raise e ->
  battle upd r st = (Raise e, st).
Proof.
  intros Hc H1. rewrite get_battle_score_eq in H1. cbn [fst] in H1.
  unfold battle. rewrite Hc. cbn [List.length Nat.ltb Nat.leb].
  unfold bind. rewrite get_battle_score_eq, H1. reflexivity.
Qed.

Lemma battle_second_score_raises (r : float) (st : state) (c1 c2 : Meal)
    (rest : list Meal) (s1 : float) (e : exn) :
  combatants st = c1 :: c2 :: rest ->
  fst (get_battle_score c1 st) = Ok s1 ->
  fst (get_battle_score c2 st) = Raise e ->
  battle upd r st = (Raise e, st).
Proof.
  intros Hc H1 H2. rewrite get_battle_score_eq in H1, H2. cbn [fst] in H1, H2.
  unfold battle. rewrite Hc. cbn [List.length Nat.ltb Nat.leb].
  unfold bind. rewrite get_battle_score_eq, H1.
  rewrite get_battle_score_eq, H2. reflexivity.
Qed.

(** What a battle does to the list of the combatants: nothing when it
    raises, and one [remove] when it returns. *)
Lemma battle_combatants (r : float) (st : state) :
  match fst (battle upd r st) with
  | Raise _ => combatants (snd (battle upd r st)) = combatants st
  | Ok _ =>
      exists loser,
        list_remove loser (combatants st)
        = Ok (combatants (snd (battle upd r st)))
  end.
Proof.
  destruct (combatants st) as [|c1 [|c2 rest]] eqn:Hc.
  - unfold battle. rewrite Hc. cbn. exact Hc.
  - unfold battle. rewrite Hc. cbn. exact Hc.
  - destruct (fst (get_battle_score c1 st)) as [s1|e1] eqn:H1.
    + destruct (fst (get_battle_score c2 st)) as [s2|e2] eqn:H2.
      * rewrite (battle_of_two r st c1 c2 rest s1 s2 Hc H1 H2). cbv zeta.
        set (winner := if r <? abs (s1 - s2) / float_of_int 100
                       then c1 else c2).
        set (loser := if r <? abs (s1 - s2) / float_of_int 100
                      then c2 else c1).
        destruct (upd (id winner) "win"%string (store st)) as [[[]|e] w];
          [|cbn; exact Hc].
        destruct (upd (id loser) "loss"%string w) as [[[]|e] w'];
          [|cbn; exact Hc].
        rewrite Hc.
        destruct (list_remove loser (c1 :: c2 :: rest)) as [l|e] eqn:Hr.
        -- cbn. exists loser. exact Hr.
        -- cbn. reflexivity.
      * rewrite (battle_second_score_raises r st c1 c2 rest s1 e2 Hc H1 H2).
        cbn. exact Hc.
    + rewrite (battle_first_score_raises r st c1 c2 rest e1 Hc H1).
      cbn. exact Hc.
Qed.

Lemma get_battle_score_valid (c : Meal) (st : state) :
  str_in (difficulty c) ["LOW"; "MED"; "HIGH"]%string = true ->
  exists k, (k = 1 \/ k = 2 \/ k = 3)%Z
    /\ difficulty_modifier (difficulty c) = Ok k
    /\ fst (get_battle_score c st)
       = Ok (price c * float_of_int (Z.of_nat (String.length (cuisine c)))
             - float_of_int k).
Proof.
  intros H. destruct (difficulty_modifier_valid _ H) as (k & Hk & Hr).
  exists k. rewrite get_battle_score_eq, Hk. auto.
Qed.

(** C1: with two combatants of valid difficulties, [battle] computes the two
    scores and delta = |score_1 - score_2| / 100; the winner is the first
    combatant when delta > r and the second otherwise, so also when delta
    equals r.  [battle] returns the winner's name when the two calls of
    [update_meal_stats] return, and never returns another name. *)
Theorem battle_winner (r : float) (st : state) (c1 c2 : Meal) :
  combatants st = [c1; c2] ->
  str_in (difficulty c1) ["LOW"; "MED"; "HIGH"]%string = true ->
  str_in (difficulty c2) ["LOW"; "MED"; "HIGH"]%string = true ->
  exists s1 s2,
    fst (get_battle_score c1 st) = Ok s1
    /\ fst (get_battle_score c2 st) = Ok s2
    /\ let delta := abs (s1 - s2) / float_of_int 100 in
       let winner := if r <? delta then c1 else c2 in
       let loser := if r <? delta then c2 else c1 in
       (forall w w',
          upd (id winner) "win"%string (store st) = (Ok tt, w) ->
          upd (id loser) "loss"%string w = (Ok tt, w') ->
          fst (battle upd r st) = Ok (meal winner))
       /\ (forall name, fst (battle upd r st) = Ok name -> name = meal winner)
       /\ ((r =? delta) = true -> winner = c2).
Proof.
  intros Hc V1 V2.
  destruct (get_battle_score_valid c1 st V1) as (k1 & _ & _ & H1).
  destruct (get_battle_score_valid c2 st V2) as (k2 & _ & _ & H2).
  eexists. eexists. split; [exact H1|]. split; [exact H2|].
  cbv zeta. rewrite (battle_of_two r st c1 c2 [] _ _ Hc H1 H2). cbv zeta.
  match goal with
  | |- context [r <? ?d] => set (delta := d)
  end.
  set (winner := if r <? delta then c1 else c2).
  set (loser := if r <? delta then c2 else c1).
  assert (Hrm : exists l, list_remove loser (combatants st) = Ok l).
  { rewrite Hc. subst loser. destruct (r <? delta).
    - rewrite list_remove_second. eexists. reflexivity.
    - rewrite list_remove_first. eexists. reflexivity. }
  destruct Hrm as (l & Hrm). rewrite Hrm.
  split; [|split].
  - intros w w' U1 U2. rewrite U1, U2. reflexivity.
  - intros name.
    destruct (upd (id winner) "win"%string (store st)) as [[[]|e] w];
      [|discriminate].
    destruct (upd (id loser) "loss"%string w) as [[[]|e] w'];
      [|discriminate].
    cbn. intros [= <-]. reflexivity.
  - intros E. subst winner. rewrite (eqb_not_ltb _ _ E). reflexivity.
Qed.

(** C3: when the call of [update_meal_stats] for the winner raises, or the
    one for the loser does, [battle] raises the same exception and the two
    combatants are still in the list; in fact the list is unchanged
    whenever [battle] raises. *)
Theorem battle_update_failure (r : float) (st : state) (c1 c2 : Meal)
    (s1 s2 : float) :
  combatants st = [c1; c2] ->
  fst (get_battle_score c1 st) = Ok s1 ->
  fst (get_battle_score c2 st) = Ok s2 ->
  let delta := abs (s1 - s2) / float_of_int 100 in
  let winner := if r <? delta then c1 else c2 in
  let loser := if r <? delta then c2 else c1 in
  (forall e w,
     upd (id winner) "win"%string (store st) = (Raise e, w) ->
     fst (battle upd r st) = Raise e
     /\ combatants (snd (battle upd r st)) = [c1; c2]
     /\ invoked (snd (battle upd r st))
        = (id winner, "win"%string) :: invoked st)
  /\ (forall w e w',
     upd (id winner) "win"%string (store st) = (Ok tt, w) ->
     upd (id loser) "loss"%string w = (Raise e, w') ->
     fst (battle upd r st) = Raise e
     /\ combatants (snd (battle upd r st)) = [c1; c2]
     /\ invoked (snd (battle upd r st))
        = (id loser, "loss"%string) :: (id winner, "win"%string)
          :: invoked st)
  /\ (forall e,
     fst (battle upd r st) = Raise e ->
     combatants (snd (battle upd r st)) = [c1; c2]).
Proof.
  intros Hc H1 H2. cbv zeta.
  rewrite (battle_of_two r st c1 c2 [] s1 s2 Hc H1 H2). cbv zeta.
  split; [|split].
  - intros e w U1. rewrite U1. cbn. auto.
  - intros w e w' U1 U2. rewrite U1, U2. cbn. auto.
  - intros e He.
    pose proof (battle_combatants r st) as B.
    rewrite (battle_of_two r st c1 c2 [] s1 s2 Hc H1 H2) in B.
    cbv zeta in B. rewrite He in B. rewrite B. exact Hc.
Qed.

(** Two meals that [==] finds equal have the same score. *)
Lemma equal_meals_same_score (c1 c2 : Meal) (st : state) (s1 s2 : float) :
  Meal_eq c1 c2 = true ->
  fst (get_battle_score c1 st) = Ok s1 ->
  fst (get_battle_score c2 st) = Ok s2 ->
  s1 = s2.
Proof.
  unfold Meal_eq. rewrite !andb_true_iff.
  intros ((((_ & _) & Hc) & Hp) & Hd).
  apply String.eqb_eq in Hc, Hd.
  rewrite !get_battle_score_eq. cbn [fst]. rewrite <- Hc, <- Hd.
  unfold difficulty_modifier.
  destruct (String.eqb (difficulty c1) "HIGH");
    [| destruct (String.eqb (difficulty c1) "MED");
       [| destruct (String.eqb (difficulty c1) "LOW"); [|discriminate]]];
    intros [= <-] [= <-];
    eapply score_of_equal_prices; try exact Hp; vm_compute; reflexivity.
Qed.

(** C4: when [battle] returns from a list of exactly two combatants (the
    random number being in the unit interval), the two scores exist, the
    winner is the combatant that delta and the random number select and the
    loser is the other one.  [update_meal_stats] has been applied to the
    store twice: first with the winner's id and 'win', which returned, then
    to the store this left with the loser's id and 'loss', which returned
    too.  The name returned is the winner's, and the state left holds the
    winner alone in the list, the store the second call left, and the two
    calls on top of the earlier ones. *)
Theorem battle_success (r : float) (st : state) (c1 c2 : Meal)
    (name : string) :
  combatants st = [c1; c2] ->
  in_unit_interval r = true ->
  fst (battle upd r st) = Ok name ->
  exists s1 s2 w w',
    fst (get_battle_score c1 st) = Ok s1
    /\ fst (get_battle_score c2 st) = Ok s2
    /\ let delta := abs (s1 - s2) / float_of_int 100 in
       let winner := if r <? delta then c1 else c2 in
       let loser := if r <? delta then c2 else c1 in
       upd (id winner) "win"%string (store st) = (Ok tt, w)
       /\ upd (id loser) "loss"%string w = (Ok tt, w')
       /\ name = meal winner
       /\ snd (battle upd r st)
          = {| combatants := [winner]; store := w';
               invoked := (id loser, "loss"%string)
                          :: (id winner, "win"%string) :: invoked st |}.
Proof.
  intros Hc Hr.
  unfold in_unit_interval in Hr. apply andb_true_iff in Hr.
  destruct Hr as (Hr0 & _).
  destruct (fst (get_battle_score c1 st)) as [s1|e1] eqn:H1;
    [| rewrite (battle_first_score_raises r st c1 c2 [] e1 Hc H1);
       discriminate].
  destruct (fst (get_battle_score c2 st)) as [s2|e2] eqn:H2;
    [| rewrite (battle_second_score_raises r st c1 c2 [] s1 e2 Hc H1 H2);
       discriminate].
  rewrite (battle_of_two r st c1 c2 [] s1 s2 Hc H1 H2). cbv zeta.
  destruct (r <? abs (s1 - s2) / float_of_int 100) eqn:Hd.
  - (* the first combatant wins *)
    destruct (upd (id c1) "win"%string (store st)) as [[[]|e] w] eqn:U1;
      [|discriminate].
    destruct (upd (id c2) "loss"%string w) as [[[]|e] w'] eqn:U2;
      [|discriminate].
    rewrite Hc, list_remove_second.
    destruct (Meal_is c1 c2) eqn:Hi.
    + apply Meal_is_eq in Hi. subst c2. cbn [fst snd orb]. intros [= <-].
      exists s1, s2, w, w'. cbv zeta. rewrite Hd.
      repeat split; assumption || reflexivity.
    + destruct (Meal_eq c1 c2) eqn:He.
      * exfalso.
        pose proof (equal_meals_same_score c1 c2 st s1 s2 He H1 H2) as E.
        subst s2.
        assert (F : (r <? abs (s1 - s1) / float_of_int 100) = false).
        { eapply delta_of_equal_scores; [vm_compute; reflexivity | exact Hr0]. }
        congruence.
      * cbn [fst snd orb]. intros [= <-].
        exists s1, s2, w, w'. cbv zeta. rewrite Hd.
        repeat split; assumption || reflexivity.
  - (* the second combatant wins *)
    destruct (upd (id c2) "win"%string (store st)) as [[[]|e] w] eqn:U1;
      [|discriminate].
    destruct (upd (id c1) "loss"%string w) as [[[]|e] w'] eqn:U2;
      [|discriminate].
    rewrite Hc, list_remove_first. cbn [fst snd orb]. intros [= <-].
    exists s1, s2, w, w'. cbv zeta. rewrite Hd.
    repeat split; assumption || reflexivity.
Qed.

(** ** The size of the list of combatants *)

Lemma step_keeps_at_most_two (o : operation) (st : state) :
  (List.length (combatants st) <= 2)%nat ->
  (List.length (combatants (step upd o st)) <= 2)%nat.
Proof.
  intros H. destruct o as [m| | |r]; cbn [step].
  - unfold prep_combatant.
    destruct (2 <=? List.length (combatants st))%nat eqn:E.
    + exact H.
    + apply Nat.leb_gt in E. cbn. rewrite length_app. cbn. lia.
  - cbn. lia.
  - exact H.
  - pose proof (battle_combatants r st) as B.
    destruct (fst (battle upd r st)).
    + destruct B as (loser & B). apply list_remove_length in B. lia.
    + rewrite B. exact H.
Qed.

(** C6: the list of combatants never holds more than two meals.
    [prep_combatant] raises "Combatant list is full" when the list holds two
    (or more) and appends otherwise; [clear_combatants] empties the list;
    a battle that returns takes a list of two to a list of one; and after
    any sequence of operations on a new model the list holds 0, 1 or 2
    meals. *)
Theorem combatants_at_most_two :
  (forall (m : Meal) (st : state),
     (2 <= List.length (combatants st))%nat ->
     prep_combatant m st = (Raise (ValueError ListFull), st))
  /\ (forall (m : Meal) (st : state),
     (List.length (combatants st) < 2)%nat ->
     prep_combatant m st
     = (Ok tt, {| combatants := combatants st ++ [m]; store := store st;
                  invoked := invoked st |}))
  /\ (forall st : state, combatants (snd (clear_combatants st)) = [])
  /\ (forall (r : float) (st : state) (name : string),
     List.length (combatants st) = 2%nat ->
     fst (battle upd r st) = Ok name ->
     List.length (combatants (snd (battle upd r st))) = 1%nat)
  /\ (forall (ops : list operation) (s : Store),
     (List.length (combatants (run upd ops (init s))) <= 2)%nat).
Proof.
  repeat split.
  - intros m st H. unfold prep_combatant.
    apply Nat.leb_le in H. rewrite H. reflexivity.
  - intros m st H. unfold prep_combatant.
    apply Nat.leb_gt in H. rewrite H. reflexivity.
  - intros r st name H E.
    pose proof (battle_combatants r st) as B. rewrite E in B.
    destruct B as (loser & B). apply list_remove_length in B. lia.
  - intros ops s. unfold run.
    assert (G : forall st : state,
               (List.length (combatants st) <= 2)%nat ->
               (List.length (combatants
                  (fold_left (fun s0 o => step upd o s0) ops st)) <= 2)%nat).
    { induction ops as [|o ops IH]; intros st H; cbn [fold_left].
      - exact H.
      - apply IH. apply step_keeps_at_most_two. exact H. }
    apply G. cbn. lia.
Qed.

End BattleFacts.

(** ** The battles of the test suite *)

Example scores_of_the_test_meals :
  fst (get_battle_score pasta (ready two_meals)) = Ok 85.5%float
  /\ fst (get_battle_score burger (ready two_meals)) = Ok 61%float
  /\ PrimFloat.ltb r_0_1 (abs (85.5 - 61) / 100)%float = true
  /\ PrimFloat.ltb r_0_3 (abs (85.5 - 61) / 100)%float = false.
Proof. repeat split. Qed.

Lemma battle_needs_two_combatants_witness :
  kitchen_battle r_0_1
    {| combatants := [pasta]; store := two_meals; invoked := [] |}
  = (Raise (ValueError TwoCombatants),
     {| combatants := [pasta]; store := two_meals; invoked := [] |}).
Proof.
  refine (proj1 (battle_needs_two_combatants database
                   Kitchen.update_meal_stats r_0_1
                   {| combatants := [pasta]; store := two_meals;
                      invoked := [] |} _)).
  cbn. lia.
Defined.

Lemma battle_winner_witness :
  fst (kitchen_battle r_0_1 (ready two_meals)) = Ok "Pasta"
  /\ fst (kitchen_battle r_0_3 (ready two_meals)) = Ok "Burger".
Proof.
  split.
  - destruct (battle_winner database Kitchen.update_meal_stats r_0_1
                (ready two_meals) pasta burger eq_refl eq_refl eq_refl)
      as (s1 & s2 & H1 & H2 & Hret & _).
    injection H1 as <-. injection H2 as <-.
    exact (Hret _ _ eq_refl eq_refl).
  - destruct (battle_winner database Kitchen.update_meal_stats r_0_3
                (ready two_meals) pasta burger eq_refl eq_refl eq_refl)
      as (s1 & s2 & H1 & H2 & Hret & _).
    injection H1 as <-. injection H2 as <-.
    exact (Hret _ _ eq_refl eq_refl).
Defined.

Lemma battle_update_failure_witness :
  fst (kitchen_battle r_0_1 (ready burger_deleted))
    = Raise (ValueError (IdDeleted 2))
  /\ combatants (snd (kitchen_battle r_0_1 (ready burger_deleted)))
     = [pasta; burger]
  /\ fst (kitchen_battle r_0_3 (ready burger_deleted))
    = Raise (ValueError (IdDeleted 2))
  /\ combatants (snd (kitchen_battle r_0_3 (ready burger_deleted)))
     = [pasta; burger].
Proof.
  pose proof (battle_update_failure database Kitchen.update_meal_stats r_0_1
                (ready burger_deleted) pasta burger 85.5%float 61%float
                eq_refl eq_refl eq_refl) as (_ & Hloser & _).
  pose proof (battle_update_failure database Kitchen.update_meal_stats r_0_3
                (ready burger_deleted) pasta burger 85.5%float 61%float
                eq_refl eq_refl eq_refl) as (Hwinner & _ & _).
  destruct (Hloser _ _ _ eq_refl eq_refl) as (A & B & _).
  destruct (Hwinner _ _ eq_refl) as (C & D & _).
  repeat split; assumption.
Defined.

Lemma battle_success_witness :
  exists w w',
    Kitchen.update_meal_stats 1 "win" two_meals = (Ok tt, w)
    /\ Kitchen.update_meal_stats 2 "loss" w = (Ok tt, w')
    /\ snd (kitchen_battle r_0_1 (ready two_meals))
       = {| combatants := [pasta]; store := w';
            invoked := [(2, "loss"%string); (1, "win"%string)] |}.
Proof.
  destruct (battle_success database Kitchen.update_meal_stats r_0_1
              (ready two_meals) pasta burger "Pasta" eq_refl eq_refl eq_refl)
    as (s1 & s2 & w & w' & H1 & H2 & U1 & U2 & _ & Hs).
  injection H1 as <-. injection H2 as <-.
  exists w, w'. exact (conj U1 (conj U2 Hs)).
Defined.

Lemma combatants_at_most_two_witness :
  prep_combatant pasta (ready two_meals)
    = (Raise (ValueError ListFull), ready two_meals)
  /\ List.length (combatants (snd (kitchen_battle r_0_1 (ready two_meals))))
     = 1%nat
  /\ (List.length
        (combatants
           (run Kitchen.update_meal_stats
              [PrepCombatant pasta; PrepCombatant burger; PrepCombatant pasta;
               DoBattle r_0_1; PrepCombatant burger; PrepCombatant pasta]
              (init two_meals))) <= 2)%nat.
Proof.
  destruct (combatants_at_most_two database Kitchen.update_meal_stats)
    as (Hfull & _ & _ & Hbattle & Hrun).
  split; [|split].
  - apply Hfull. cbn. lia.
  - apply (Hbattle r_0_1 (ready two_meals) "Pasta"%string); reflexivity.
  - apply Hrun.
Defined.



(** * More on the kitchen model *)

Import Requests.

Section RowFacts.

Local Open Scope Z_scope.

(** ** Rows after an UPDATE *)

Lemma update_meal_stats_eq (meal_id : Z) (result0 : string) (d : database) :
  update_meal_stats meal_id result0 d
  = let d1 := execute (SelectDeleted meal_id) d in
    match fetchone_id meal_id d with
    | Some r =>
        if r_deleted r then (Raise (ValueError (IdDeleted meal_id)), d1)
        else if String.eqb result0 "win" then
          (Ok tt, commit (update_where_id meal_id record_win (meals d))
                    (execute (UpdateWin meal_id) d1))
        else if String.eqb result0 "loss" then
          (Ok tt, commit (update_where_id meal_id record_loss (meals d))
                    (execute (UpdateLoss meal_id) d1))
        else (Raise (ValueError (InvalidResult result0)), d1)
    | None =>
        if is_sqlite_integer meal_id then
          (Raise (ValueError (IdNotFound meal_id)), d1)
        else (Raise OverflowError, d)
    end.
Proof. reflexivity. Qed.

Lemma delete_meal_eq (meal_id : Z) (d : database) :
  delete_meal meal_id d
  = let d1 := execute (SelectDeleted meal_id) d in
    match fetchone_id meal_id d with
    | Some r =>
        if r_deleted r then (Raise (ValueError (IdDeleted meal_id)), d1)
        else (Ok tt, commit (update_where_id meal_id mark_deleted (meals d))
                       (execute (SetDeleted meal_id) d1))
    | None =>
        if is_sqlite_integer meal_id then
          (Raise (ValueError (IdNotFound meal_id)), d1)
        else (Raise OverflowError, d)
    end.
Proof. reflexivity. Qed.

(** The first record of an id after an UPDATE of the records of an id. *)
Lemma find_update_where_id (i j : Z) (f : row -> row) (rows : list row) :
  (forall r, r_id (f r) = r_id r) ->
  find (fun r => r_id r =? j) (update_where_id i f rows)
  = option_map (fun r => if r_id r =? i then f r else r)
      (find (fun r => r_id r =? j) rows).
Proof.
  intros Hf. induction rows as [|r rows IH]; cbn [update_where_id map find].
  - reflexivity.
  - destruct (r_id r =? i) eqn:E.
    + rewrite Hf. destruct (r_id r =? j) eqn:F.
      * cbn. rewrite E. reflexivity.
      * exact IH.
    + destruct (r_id r =? j) eqn:F.
      * cbn. rewrite E. reflexivity.
      * exact IH.
Qed.

Lemma fetchone_id_commit (j : Z) (rows : list row) (d : database) :
  fetchone_id j (commit rows d) = find (fun r => r_id r =? j) rows.
Proof. reflexivity. Qed.

Lemma fetchone_id_execute (j : Z) (q : statement) (d : database) :
  fetchone_id j (execute q d) = fetchone_id j d.
Proof. reflexivity. Qed.

Lemma fetchone_id_found (meal_id : Z) (d : database) (r : row) :
  fetchone_id meal_id d = Some r -> In r (meals d) /\ r_id r = meal_id.
Proof.
  intros H. apply find_some in H. destruct H as (Hin & Hid).
  apply Z.eqb_eq in Hid. auto.
Qed.

Lemma existsb_update_where_id (P : row -> bool) (i : Z) (f : row -> row)
    (rows : list row) :
  (forall r, P (f r) = P r) ->
  existsb P (update_where_id i f rows) = existsb P rows.
Proof.
  intros Hf. induction rows as [|r rows IH]; cbn [update_where_id map existsb].
  - reflexivity.
  - fold (update_where_id i f rows). rewrite IH.
    destruct (r_id r =? i); [rewrite Hf|]; reflexivity.
Qed.

Lemma forallb_update_where_id (P : row -> bool) (i : Z) (f : row -> row)
    (rows : list row) :
  (forall r, P r = true -> P (f r) = true) ->
  forallb P rows = true -> forallb P (update_where_id i f rows) = true.
Proof.
  intros Hf. induction rows as [|r rows IH]; cbn [update_where_id map forallb].
  - reflexivity.
  - fold (update_where_id i f rows). rewrite !andb_true_iff.
    intros (Hr & Hrows). split; [|apply IH; exact Hrows].
    destruct (r_id r =? i); [apply Hf|]; exact Hr.
Qed.

Lemma map_update_where_id {B : Type} (g : row -> B) (i : Z) (f : row -> row)
    (rows : list row) :
  (forall r, g (f r) = g r) ->
  map g (update_where_id i f rows) = map g rows.
Proof.
  intros Hf. unfold update_where_id. rewrite map_map.
  apply map_ext. intros r. destruct (r_id r =? i); [apply Hf|reflexivity].
Qed.

(** ** A deleted record stays deleted *)

(** X1: once [delete_meal] has marked a record, a second [delete_meal] of
    the id, [get_meal_by_id] and [update_meal_stats] (with any outcome) all
    raise "has been deleted": the deletion cannot be repeated or undone
    through these calls. *)
Theorem delete_meal_is_final (d : database) (meal_id : Z) (r : row) :
  fetchone_id meal_id d = Some r ->
  r_deleted r = false ->
  let d' := snd (delete_meal meal_id d) in
  fst (delete_meal meal_id d) = Ok tt
  /\ fetchone_id meal_id d' = Some (mark_deleted r)
  /\ fst (delete_meal meal_id d') = Raise (ValueError (IdDeleted meal_id))
  /\ fst (get_meal_by_id meal_id d') = Raise (ValueError (IdDeleted meal_id))
  /\ (forall result0,
        fst (update_meal_stats meal_id result0 d')
        = Raise (ValueError (IdDeleted meal_id))).
Proof.
  intros Hrow Hlive. cbv zeta.
  destruct (fetchone_id_found _ _ _ Hrow) as (_ & Hid).
  assert (E : fetchone_id meal_id (snd (delete_meal meal_id d))
              = Some (mark_deleted r)).
  { rewrite delete_meal_eq. cbv zeta. rewrite Hrow, Hlive. cbn [snd].
    rewrite fetchone_id_commit, find_update_where_id by reflexivity.
    unfold fetchone_id in Hrow. rewrite Hrow. cbn.
    rewrite Hid, Z.eqb_refl. reflexivity. }
  split; [|split; [exact E|]].
  - rewrite delete_meal_eq. cbv zeta. rewrite Hrow, Hlive. reflexivity.
  - split; [|split].
    + rewrite delete_meal_eq. cbv zeta. rewrite E. reflexivity.
    + unfold get_meal_by_id. rewrite E. reflexivity.
    + intros result0. rewrite update_meal_stats_eq. cbv zeta. rewrite E.
      reflexivity.
Qed.

Lemma delete_meal_is_final_witness :
  fst (delete_meal 2 two_meals) = Ok tt
  /\ fst (delete_meal 2 (snd (delete_meal 2 two_meals)))
     = Raise (ValueError (IdDeleted 2)).
Proof.
  pose proof (delete_meal_is_final two_meals 2 (fresh_row burger)
                eq_refl eq_refl) as H.
  split; [exact (proj1 H) | exact (proj1 (proj2 (proj2 H)))].
Defined.

(** X2: deleting a meal does not free its name: after [delete_meal],
    [create_meal] with the name of the deleted record (and a valid
    difficulty and a valid price that binds: a float, or an int that is an
    integer of sqlite) raises "already exists" and adds no record. *)
Theorem deleted_name_stays_taken (d : database) (meal_id : Z) (r : row)
    (cuisine0 : string) (price0 : object) (difficulty0 : string) :
  fetchone_id meal_id d = Some r ->
  r_deleted r = false ->
  is_int_or_float price0 = true ->
  le_zero price0 = false ->
  sqlite_binds price0 = true ->
  str_in difficulty0 ["LOW"; "MED"; "HIGH"]%string = true ->
  let d' := snd (delete_meal meal_id d) in
  fst (create_meal (r_meal r) cuisine0 price0 difficulty0 d')
    = Raise (ValueError (AlreadyExists (r_meal r)))
  /\ meals (snd (create_meal (r_meal r) cuisine0 price0 difficulty0 d'))
     = meals d'.
Proof.
  intros Hrow Hlive Hnum Hpos Hbind Hdiff. cbv zeta.
  destruct (fetchone_id_found _ _ _ Hrow) as (Hin & _).
  assert (E : existsb (fun r0 => String.eqb (r_meal r0) (r_meal r))
                (meals (snd (delete_meal meal_id d))) = true).
  { rewrite delete_meal_eq. cbv zeta. rewrite Hrow, Hlive. cbn [snd commit meals].
    rewrite existsb_update_where_id by reflexivity.
    apply existsb_exists. exists r. split; [exact Hin|].
    apply String.eqb_refl. }
  unfold create_meal. rewrite Hnum, Hpos, Hdiff, Hbind. cbn [negb orb].
  rewrite E. split; reflexivity.
Qed.

Lemma deleted_name_stays_taken_witness :
  fst (create_meal "Burger" "Fast food" (PyFloat 5) "LOW"
         (snd (delete_meal 2 two_meals)))
  = Raise (ValueError (AlreadyExists "Burger")).
Proof.
  exact (proj1 (deleted_name_stays_taken two_meals 2 (fresh_row burger)
                  "Fast food" (PyFloat 5) "LOW"
                  eq_refl eq_refl eq_refl eq_refl eq_refl eq_refl)).
Defined.

(** ** What a call that raises has written *)

Lemma get_meal_by_id_reads (meal_id : Z) (d : database) :
  meals (snd (get_meal_by_id meal_id d)) = meals d.
Proof.
  unfold get_meal_by_id.
  destruct (fetchone_id meal_id d) as [r|].
  - destruct (r_deleted r); reflexivity.
  - destruct (is_sqlite_integer meal_id); reflexivity.
Qed.

Lemma get_leaderboard_reads (sort_by : string) (d : database) :
  meals (snd (get_leaderboard sort_by d)) = meals d.
Proof.
  unfold get_leaderboard.
  destruct (String.eqb sort_by "win_pct"); [reflexivity|].
  destruct (String.eqb sort_by "wins"); reflexivity.
Qed.

(** X3: a kitchen call that raises has written no row: after a failed
    [create_meal], [delete_meal] or [update_meal_stats] the rows are those
    of before; [get_meal_by_id] and [get_leaderboard] never write a row,
    whether they return or raise. *)
Theorem failed_call_writes_nothing (d : database) :
  (forall meal0 cuisine0 price0 difficulty0 e,
     fst (create_meal meal0 cuisine0 price0 difficulty0 d) = Raise e ->
     meals (snd (create_meal meal0 cuisine0 price0 difficulty0 d)) = meals d)
  /\ (forall meal_id e,
     fst (delete_meal meal_id d) = Raise e ->
     meals (snd (delete_meal meal_id d)) = meals d)
  /\ (forall meal_id result0 e,
     fst (update_meal_stats meal_id result0 d) = Raise e ->
     meals (snd (update_meal_stats meal_id result0 d)) = meals d)
  /\ (forall meal_id, meals (snd (get_meal_by_id meal_id d)) = meals d)
  /\ (forall sort_by, meals (snd (get_leaderboard sort_by d)) = meals d).
Proof.
  split; [|split; [|split; [|split]]].
  - intros meal0 cuisine0 price0 difficulty0 e. unfold create_meal.
    destruct (negb (is_int_or_float price0) || le_zero price0);
      [reflexivity|].
    destruct (negb (str_in difficulty0 ["LOW"; "MED"; "HIGH"]%string));
      [reflexivity|].
    destruct (negb (sqlite_binds price0)); [reflexivity|].
    destruct (existsb _ _); [reflexivity|discriminate].
  - intros meal_id e. rewrite delete_meal_eq. cbv zeta.
    destruct (fetchone_id meal_id d) as [r|];
      [|destruct (is_sqlite_integer meal_id); reflexivity].
    destruct (r_deleted r); [reflexivity|discriminate].
  - intros meal_id result0 e. rewrite update_meal_stats_eq. cbv zeta.
    destruct (fetchone_id meal_id d) as [r|];
      [|destruct (is_sqlite_integer meal_id); reflexivity].
    destruct (r_deleted r); [reflexivity|].
    destruct (String.eqb result0 "win"); [discriminate|].
    destruct (String.eqb result0 "loss"); [discriminate|reflexivity].
  - intros meal_id. apply get_meal_by_id_reads.
  - intros sort_by. apply get_leaderboard_reads.
Qed.

Lemma failed_call_writes_nothing_witness :
  meals (snd (update_meal_stats 2 "draw" two_meals)) = meals two_meals
  /\ meals (snd (create_meal "Pasta" "Italian" (PyFloat 9) "MED" two_meals))
     = meals two_meals.
Proof.
  destruct (failed_call_writes_nothing two_meals) as (Hc & _ & Hu & _).
  split.
  - exact (Hu 2 "draw"%string (ValueError (InvalidResult "draw")) eq_refl).
  - exact (Hc "Pasta"%string "Italian"%string (PyFloat 9) "MED"%string
             (ValueError (AlreadyExists "Pasta")) eq_refl).
Defined.

(** ** What update_meal_stats writes *)

(** X4: for a record that exists and is not deleted, [update_meal_stats]
    with 'win' adds 1 to the battles and to the wins of the record, with
    'loss' it adds 1 to the battles only; with any outcome the record of
    every other id reads as before, and no record changes its id, name,
    cuisine, price, difficulty or deleted flag. *)
Theorem update_meal_stats_effect (d : database) (meal_id : Z) (r : row) :
  fetchone_id meal_id d = Some r ->
  r_deleted r = false ->
  fetchone_id meal_id (snd (update_meal_stats meal_id "win" d))
    = Some (record_win r)
  /\ fetchone_id meal_id (snd (update_meal_stats meal_id "loss" d))
    = Some (record_loss r)
  /\ (forall result0 other,
        other <> meal_id ->
        fetchone_id other (snd (update_meal_stats meal_id result0 d))
        = fetchone_id other d)
  /\ (forall result0,
        map description (meals (snd (update_meal_stats meal_id result0 d)))
        = map description (meals d)).
Proof.
  intros Hrow Hlive.
  destruct (fetchone_id_found _ _ _ Hrow) as (_ & Hid).
  assert (Hfind : find (fun r0 => r_id r0 =? meal_id) (meals d) = Some r)
    by exact Hrow.
  split; [|split; [|split]].
  - rewrite update_meal_stats_eq. cbv zeta. rewrite Hrow, Hlive. cbn [snd String.eqb Ascii.eqb Bool.eqb].
    rewrite fetchone_id_commit, find_update_where_id by reflexivity.
    rewrite Hfind. cbn. rewrite Hid, Z.eqb_refl. reflexivity.
  - rewrite update_meal_stats_eq. cbv zeta. rewrite Hrow, Hlive. cbn [snd String.eqb Ascii.eqb Bool.eqb].
    rewrite fetchone_id_commit, find_update_where_id by reflexivity.
    rewrite Hfind. cbn. rewrite Hid, Z.eqb_refl. reflexivity.
  - intros result0 other Hother.
    assert (G : forall f, (forall r0, r_id (f r0) = r_id r0) ->
                find (fun r0 => r_id r0 =? other)
                  (update_where_id meal_id f (meals d))
                = fetchone_id other d).
    { intros f Hf. rewrite find_update_where_id by exact Hf.
      unfold fetchone_id.
      destruct (find (fun r0 => r_id r0 =? other) (meals d)) as [r0|] eqn:F;
        [|reflexivity].
      apply find_some in F. destruct F as (_ & F). apply Z.eqb_eq in F.
      cbn. replace (r_id r0 =? meal_id) with false; [reflexivity|].
      symmetry. apply Z.eqb_neq. congruence. }
    rewrite update_meal_stats_eq. cbv zeta. rewrite Hrow, Hlive.
    destruct (String.eqb result0 "win").
    + cbn [snd]. rewrite fetchone_id_commit. apply G. reflexivity.
    + destruct (String.eqb result0 "loss").
      * cbn [snd]. rewrite fetchone_id_commit. apply G. reflexivity.
      * reflexivity.
  - intros result0. rewrite update_meal_stats_eq. cbv zeta.
    rewrite Hrow, Hlive.
    destruct (String.eqb result0 "win").
    + cbn [snd commit meals]. apply map_update_where_id. reflexivity.
    + destruct (String.eqb result0 "loss").
      * cbn [snd commit meals]. apply map_update_where_id. reflexivity.
      * reflexivity.
Qed.

Lemma update_meal_stats_effect_witness :
  fetchone_id 1 (snd (update_meal_stats 1 "win" two_meals))
    = Some (record_win (fresh_row pasta))
  /\ fetchone_id 2 (snd (update_meal_stats 1 "win" two_meals))
    = Some (fresh_row burger).
Proof.
  pose proof (update_meal_stats_effect two_meals 1 (fresh_row pasta)
                eq_refl eq_refl) as (Hwin & _ & Hother & _).
  split; [exact Hwin|].
  apply (Hother "win"%string 2). discriminate.
Defined.

(** ** Invariants of the table *)

Lemma record_win_within (r : row) :
  wins_within_battles r = true -> wins_within_battles (record_win r) = true.
Proof. unfold wins_within_battles. cbn. lia. Qed.

Lemma record_loss_within (r : row) :
  wins_within_battles r = true -> wins_within_battles (record_loss r) = true.
Proof. unfold wins_within_battles. cbn. lia. Qed.

Lemma serve_keeps_invariant (q : request) (d : database) :
  forallb wins_within_battles (meals d) = true ->
  NoDup (map r_meal (meals d)) ->
  forallb wins_within_battles (meals (serve q d)) = true
  /\ NoDup (map r_meal (meals (serve q d))).
Proof.
  intros Hw Hn.
  destruct q as [m c p f|i|k|i|i res]; cbn [serve].
  - unfold create_meal.
    destruct (negb (is_int_or_float p) || le_zero p); [auto|].
    destruct (negb (str_in f ["LOW"; "MED"; "HIGH"]%string)); [auto|].
    destruct (negb (sqlite_binds p)); [auto|].
    destruct (existsb (fun r => String.eqb (r_meal r) m) (meals d)) eqn:E;
      [auto|].
    cbn [snd commit meals]. split.
    + rewrite forallb_app, Hw. reflexivity.
    + rewrite map_app. cbn [map].
      apply NoDup_app.
      * exact Hn.
      * constructor; [intros []|constructor].
      * intros x Hx [<-|[]].
        apply in_map_iff in Hx. destruct Hx as (r & Hr & Hin).
        assert (F : existsb (fun r0 => String.eqb (r_meal r0) m) (meals d)
                    = true).
        { apply existsb_exists. exists r. split; [exact Hin|].
          apply String.eqb_eq. exact Hr. }
        congruence.
  - rewrite delete_meal_eq. cbv zeta.
    destruct (fetchone_id i d) as [r|];
      [|destruct (is_sqlite_integer i); auto].
    destruct (r_deleted r); [auto|]. cbn [snd commit meals]. split.
    + apply forallb_update_where_id; [|exact Hw]. intros r0 H0. exact H0.
    + rewrite map_update_where_id by reflexivity. exact Hn.
  - rewrite get_leaderboard_reads. auto.
  - rewrite get_meal_by_id_reads. auto.
  - rewrite update_meal_stats_eq. cbv zeta.
    destruct (fetchone_id i d) as [r|];
      [|destruct (is_sqlite_integer i); auto].
    destruct (r_deleted r); [auto|].
    destruct (String.eqb res "win").
    + cbn [snd commit meals]. split.
      * apply forallb_update_where_id; [|exact Hw]. apply record_win_within.
      * rewrite map_update_where_id by reflexivity. exact Hn.
    + destruct (String.eqb res "loss"); [|auto].
      cbn [snd commit meals]. split.
      * apply forallb_update_where_id; [|exact Hw]. apply record_loss_within.
      * rewrite map_update_where_id by reflexivity. exact Hn.
Qed.

(** X5: whatever calls are served, the win count of every record stays
    between 0 and its battle count, and no two records (deleted ones
    included) have the same name. *)
Theorem table_invariant (qs : list request) (d : database) :
  forallb wins_within_battles (meals d) = true ->
  NoDup (map r_meal (meals d)) ->
  forallb wins_within_battles (meals (serve_all qs d)) = true
  /\ NoDup (map r_meal (meals (serve_all qs d))).
Proof.
  unfold serve_all. revert d.
  induction qs as [|q qs IH]; intros d Hw Hn; cbn [fold_left].
  - auto.
  - destruct (serve_keeps_invariant q d Hw Hn) as (Hw' & Hn').
    apply IH; assumption.
Qed.

Lemma table_invariant_witness :
  let d := serve_all
             [CreateMeal "Pasta" "Italian" (PyFloat 12.5) "MED";
              CreateMeal "Pasta" "Thai" (PyInt 3) "LOW";
              UpdateMealStats 1 "win"; UpdateMealStats 1 "loss";
              DeleteMeal 1; UpdateMealStats 1 "win";
              CreateMeal "Pasta" "Greek" (PyInt 4) "HIGH"]
             empty_database in
  forallb wins_within_battles (meals d) = true
  /\ NoDup (map r_meal (meals d)).
Proof.
  cbv zeta. apply table_invariant.
  - reflexivity.
  - constructor.
Defined.

(** ** Meals read from the table *)

Lemma ltb_not_leb (x y : float) :
  PrimFloat.ltb x y = true -> PrimFloat.leb y x = false.
Proof.
  rewrite ltb_spec, leb_spec. unfold SFltb, SFleb.
  rewrite (SFcompare_antisym (Prim2SF x) (Prim2SF y)).
  destruct (SFcompare (Prim2SF x) (Prim2SF y)) as [[]|]; cbn; congruence.
Qed.

Lemma find_app_new {A : Type} (P : A -> bool) (l : list A) (x : A) :
  existsb P l = false -> P x = true -> find P (l ++ [x]) = Some x.
Proof.
  intros Hl Hx. induction l as [|y l IH]; cbn in *.
  - rewrite Hx. reflexivity.
  - apply orb_false_iff in Hl. destruct Hl as (Hy & Hl).
    rewrite Hy. apply IH. exact Hl.
Qed.

(** X6: a meal that [get_meal_by_id] or [get_meal_by_name] returns has the
    id, or the name, that was asked for, and [get_battle_score] returns a
    score for it: the difficulties that [Meal] accepts are the keys of the
    dictionary of modifiers. *)
Theorem fetched_meal_has_a_score :
  (forall (meal_id : Z) (d : database) (m : Meal),
     fst (get_meal_by_id meal_id d) = Ok m ->
     id m = meal_id
     /\ exists s, forall (Store : Type) (st : Battle.state Store),
          get_battle_score m st = (Ok s, st))
  /\ (forall (meal_name : string) (rows : list row) (m : Meal),
     get_meal_by_name meal_name rows = Ok m ->
     meal m = meal_name
     /\ exists s, forall (Store : Type) (st : Battle.state Store),
          get_battle_score m st = (Ok s, st)).
Proof.
  assert (Score : forall i n c p f m,
            Meal_init i n c p f = Ok m ->
            exists s, forall (Store : Type) (st : Battle.state Store),
              get_battle_score m st = (Ok s, st)).
  { intros i n c p f m H.
    destruct (Meal_init_checks _ _ _ _ _ _ H) as (_ & V).
    destruct (difficulty_modifier_valid _ V) as (k & Hk & _).
    eexists. intros Store st. rewrite get_battle_score_eq, Hk. reflexivity. }
  assert (Fields : forall i n c p f m,
            Meal_init i n c p f = Ok m -> id m = i /\ meal m = n).
  { intros i n c p f m. unfold Meal_init.
    destruct (PrimFloat.ltb p 0); [discriminate|].
    destruct (negb (str_in f ["LOW"; "MED"; "HIGH"]%string)); [discriminate|].
    intros [= <-]. split; reflexivity. }
  split.
  - intros meal_id d m. unfold get_meal_by_id.
    destruct (fetchone_id meal_id d) as [r|] eqn:E;
      [|destruct (is_sqlite_integer meal_id); discriminate].
    destruct (r_deleted r); [discriminate|]. cbn [fst]. intros H.
    destruct (fetchone_id_found _ _ _ E) as (_ & Hid).
    split; [|exact (Score _ _ _ _ _ _ H)].
    rewrite (proj1 (Fields _ _ _ _ _ _ H)). exact Hid.
  - intros meal_name rows m. unfold get_meal_by_name.
    destruct (fetchone_name meal_name rows) as [r|] eqn:E; [|discriminate].
    destruct (r_deleted r); [discriminate|]. intros H.
    apply find_some in E. destruct E as (_ & E). apply String.eqb_eq in E.
    split; [|exact (Score _ _ _ _ _ _ H)].
    rewrite (proj2 (Fields _ _ _ _ _ _ H)). exact E.
Qed.

Lemma fetched_meal_has_a_score_witness :
  id pasta = 1
  /\ exists s, forall (Store : Type) (st : Battle.state Store),
       get_battle_score pasta st = (Ok s, st).
Proof.
  exact (proj1 fetched_meal_has_a_score 1 two_meals pasta eq_refl).
Defined.

(** X7: a meal created with a price above 0, one of the three difficulties
    and a name that no record has is read back by [get_meal_by_name] with
    the name, the cuisine, the price and the difficulty it was created
    with. *)
Theorem create_then_get_by_name (meal0 cuisine0 : string) (price0 : float)
    (difficulty0 : string) (d : database) :
  PrimFloat.ltb 0 price0 = true ->
  str_in difficulty0 ["LOW"; "MED"; "HIGH"]%string = true ->
  fetchone_name meal0 (meals d) = None ->
  let created := create_meal meal0 cuisine0 (PyFloat price0) difficulty0 d in
  fst created = Ok tt
  /\ exists i,
       get_meal_by_name meal0 (meals (snd created))
       = Ok {| id := i; meal := meal0; cuisine := cuisine0;
               price := price0; difficulty := difficulty0 |}.
Proof.
  intros Hp Hd Hn. cbv zeta.
  assert (E : existsb (fun r => String.eqb (r_meal r) meal0) (meals d) = false).
  { destruct (existsb (fun r => String.eqb (r_meal r) meal0) (meals d)) eqn:E;
      [|reflexivity].
    apply existsb_exists in E. destruct E as (r & Hin & Hr).
    unfold fetchone_name in Hn.
    pose proof (find_none _ _ Hn r Hin) as F. cbn in F. congruence. }
  unfold create_meal. cbn [is_int_or_float le_zero sqlite_binds negb orb].
  rewrite (ltb_not_leb _ _ Hp), Hd. cbn [negb]. rewrite E.
  split; [reflexivity|].
  exists (next_id (meals d)). cbn [snd commit meals].
  unfold get_meal_by_name, fetchone_name.
  rewrite (find_app_new _ _ _ E) by (cbn; apply String.eqb_refl).
  cbn [r_deleted r_id r_meal r_cuisine r_price r_difficulty to_float].
  unfold Meal_init. rewrite (ltb_asym _ _ Hp), Hd. reflexivity.
Qed.

Lemma create_then_get_by_name_witness :
  exists i,
    get_meal_by_name "Sushi"
      (meals (snd (create_meal "Sushi" "Japanese" (PyFloat 15) "HIGH"
                     two_meals)))
    = Ok {| id := i; meal := "Sushi"; cuisine := "Japanese"; price := 15;
            difficulty := "HIGH" |}.
Proof.
  exact (proj2 (create_then_get_by_name "Sushi" "Japanese" 15 "HIGH"
                  two_meals eq_refl eq_refl eq_refl)).
Defined.

End RowFacts.

(** * More on the battle model *)

Section MoreFloatFacts.

Local Open Scope Z_scope.

Ltac compare_cases :=
  repeat match goal with
  | H : context [Pos.compare_cont Eq ?a ?b] |- _ =>
      change (Pos.compare_cont Eq a b) with (Pos.compare a b) in *;
      destruct (Pos.compare_spec a b)
  | |- context [Pos.compare_cont Eq ?a ?b] =>
      change (Pos.compare_cont Eq a b) with (Pos.compare a b) in *;
      destruct (Pos.compare_spec a b)
  | H : context [Z.compare ?a ?b] |- _ => destruct (Z.compare_spec a b)
  | |- context [Z.compare ?a ?b] => destruct (Z.compare_spec a b)
  end.

Lemma SFltb_leb_trans (x y z : spec_float) :
  SFltb x y = true -> SFleb y z = true -> SFltb x z = true.
Proof.
  unfold SFleb, SFltb, SFcompare.
  destruct x as [sx|sx| |sx mx ex], y as [sy|sy| |sy my ey],
           z as [sz|sz| |sz mz ez];
    try discriminate; try reflexivity;
    try destruct sx; try destruct sy; try destruct sz;
    try discriminate; try reflexivity;
    intros H1 H2; compare_cases; subst;
    try discriminate; try reflexivity; try lia.
Qed.

Lemma SFabs_binary_round_aux (s : bool) (m e : Z) (l : location) :
  SFabs (binary_round_aux prec emax s m e l)
  = SFabs (binary_round_aux prec emax false m e l).
Proof.
  unfold binary_round_aux.
  destruct (shr_fexp prec emax m e l) as [mrs' e'].
  destruct (shr_fexp prec emax _ e' loc_Exact) as [mrs'' e''].
  destruct (shr_m mrs''); try reflexivity.
  destruct (e'' <=? emax - prec); reflexivity.
Qed.

Lemma SFabs_binary_normalize_opp (m e : Z) :
  SFabs (binary_normalize prec emax (- m) e false)
  = SFabs (binary_normalize prec emax m e false).
Proof.
  destruct m as [|p|p]; cbn [Z.opp binary_normalize]; try reflexivity;
    unfold binary_round;
    destruct (shl_align p e _) as [mz ez];
    [|symmetry]; apply SFabs_binary_round_aux.
Qed.

Lemma SFabs_sub_comm (x y : spec_float) :
  SFabs (SFsub prec emax x y) = SFabs (SFsub prec emax y x).
Proof.
  destruct x as [sx|sx| |sx mx ex], y as [sy|sy| |sy my ey];
    cbn [SFsub]; try reflexivity;
    try (destruct sx, sy; reflexivity).
  rewrite (Z.min_comm ey ex).
  rewrite <- SFabs_binary_normalize_opp. f_equal. f_equal. lia.
Qed.

Lemma abs_sub_comm (x y : float) : abs (x - y) = abs (y - x).
Proof.
  apply Prim2SF_inj. rewrite !abs_spec, !sub_spec. apply SFabs_sub_comm.
Qed.

Lemma ltb_leb_trans (x y z : float) :
  PrimFloat.ltb x y = true -> PrimFloat.leb y z = true ->
  PrimFloat.ltb x z = true.
Proof. rewrite !ltb_spec, leb_spec. apply SFltb_leb_trans. Qed.

End MoreFloatFacts.

Section MoreBattleFacts.

Variable Store : Type.
Variable upd : Z -> string -> Store -> result unit * Store.

Local Open Scope float_scope.

(** ** A difficulty that is not in the dictionary *)

Lemma difficulty_modifier_unknown (d : string) :
  str_in d ["LOW"; "MED"; "HIGH"]%string = false ->
  difficulty_modifier d = Raise (KeyError d).
Proof.
  unfold str_in, difficulty_modifier. cbn [existsb].
  rewrite !orb_false_iff. intros (H3 & H2 & H1 & _).
  rewrite H1, H2, H3. reflexivity.
Qed.

(** X8: when the difficulty of the first combatant, or else of the second,
    is not 'LOW', 'MED' or 'HIGH', [battle] raises [KeyError] with that
    difficulty before any call of [update_meal_stats]: the combatants, the
    store and the list of calls are as before. *)
Theorem battle_unknown_difficulty (r : float) (st : Battle.state Store)
    (c1 c2 : Meal) (rest : list Meal) :
  combatants st = c1 :: c2 :: rest ->
  (str_in (difficulty c1) ["LOW"; "MED"; "HIGH"]%string = false ->
   battle upd r st = (Raise (KeyError (difficulty c1)), st))
  /\ (str_in (difficulty c1) ["LOW"; "MED"; "HIGH"]%string = true ->
      str_in (difficulty c2) ["LOW"; "MED"; "HIGH"]%string = false ->
      battle upd r st = (Raise (KeyError (difficulty c2)), st)).
Proof.
  intros Hc. split.
  - intros H1. apply (battle_first_score_raises Store upd r st c1 c2 rest).
    + exact Hc.
    + rewrite get_battle_score_eq, (difficulty_modifier_unknown _ H1).
      reflexivity.
  - intros H1 H2.
    destruct (get_battle_score_valid Store c1 st H1) as (k & _ & _ & S1).
    apply (battle_second_score_raises Store upd r st c1 c2 rest _ _ Hc S1).
    rewrite get_battle_score_eq, (difficulty_modifier_unknown _ H2).
    reflexivity.
Qed.

(** ** Who wins *)

(** The loser is removed, whichever combatant it is, when the first
    combatant wins only if the scores differ. *)
Lemma remove_second_keeps_first (r : float) (st : Battle.state Store)
    (c1 c2 : Meal) (s1 s2 : float) :
  fst (get_battle_score c1 st) = Ok s1 ->
  fst (get_battle_score c2 st) = Ok s2 ->
  (0 <=? r) = true ->
  (r <? abs (s1 - s2) / float_of_int 100) = true ->
  list_remove c2 [c1; c2] = Ok [c1].
Proof.
  intros H1 H2 Hr Hd. rewrite list_remove_second.
  destruct (Meal_is c1 c2) eqn:Hi.
  - apply Meal_is_eq in Hi. subst c2. reflexivity.
  - destruct (Meal_eq c1 c2) eqn:He; [|reflexivity].
    exfalso.
    pose proof (equal_meals_same_score Store c1 c2 st s1 s2 He H1 H2) as E.
    subst s2.
    assert (F : (r <? abs (s1 - s1) / float_of_int 100) = false).
    { eapply delta_of_equal_scores; [vm_compute; reflexivity | exact Hr]. }
    congruence.
Qed.

(** X9: two combatants with the same score: whatever number of the unit
    interval is drawn, the second combatant wins.  When the two calls of
    [update_meal_stats] return, [battle] returns the name of the second
    combatant, which stays alone in the list. *)
Theorem equal_scores_second_wins (r : float) (st : Battle.state Store)
    (c1 c2 : Meal) (s : float) (w w' : Store) :
  combatants st = [c1; c2] ->
  fst (get_battle_score c1 st) = Ok s ->
  fst (get_battle_score c2 st) = Ok s ->
  in_unit_interval r = true ->
  upd (id c2) "win"%string (store st) = (Ok tt, w) ->
  upd (id c1) "loss"%string w = (Ok tt, w') ->
  battle upd r st
  = (Ok (meal c2),
     {| combatants := [c2]; store := w';
        invoked := (id c1, "loss"%string) :: (id c2, "win"%string)
                   :: invoked st |}).
Proof.
  intros Hc H1 H2 Hr U1 U2.
  unfold in_unit_interval in Hr. apply andb_true_iff in Hr.
  destruct Hr as (Hr0 & _).
  rewrite (battle_of_two Store upd r st c1 c2 [] s s Hc H1 H2). cbv zeta.
  assert (F : (r <? abs (s - s) / float_of_int 100) = false).
  { eapply delta_of_equal_scores; [vm_compute; reflexivity | exact Hr0]. }
  rewrite F, U1, U2, Hc, list_remove_first. reflexivity.
Qed.

(** X10: when the scores differ by 100 or more (delta is at least 1), the
    first combatant wins whatever number of the unit interval is drawn. *)
Theorem large_delta_first_wins (r : float) (st : Battle.state Store)
    (c1 c2 : Meal) (s1 s2 : float) (w w' : Store) :
  combatants st = [c1; c2] ->
  fst (get_battle_score c1 st) = Ok s1 ->
  fst (get_battle_score c2 st) = Ok s2 ->
  (1 <=? abs (s1 - s2) / float_of_int 100) = true ->
  in_unit_interval r = true ->
  upd (id c1) "win"%string (store st) = (Ok tt, w) ->
  upd (id c2) "loss"%string w = (Ok tt, w') ->
  battle upd r st
  = (Ok (meal c1),
     {| combatants := [c1]; store := w';
        invoked := (id c2, "loss"%string) :: (id c1, "win"%string)
                   :: invoked st |}).
Proof.
  intros Hc H1 H2 Hd Hr U1 U2.
  unfold in_unit_interval in Hr. apply andb_true_iff in Hr.
  destruct Hr as (Hr0 & Hr1).
  pose proof (ltb_leb_trans _ _ _ Hr1 Hd) as Hlt.
  rewrite (battle_of_two Store upd r st c1 c2 [] s1 s2 Hc H1 H2). cbv zeta.
  rewrite Hlt, U1, U2, Hc.
  rewrite (remove_second_keeps_first r st c1 c2 s1 s2 H1 H2 Hr0 Hlt).
  reflexivity.
Qed.

(** X11: the order of the two combatants decides, not the higher score:
    delta is the same for the two orders, so with the same number drawn
    the battle of [c1; c2] and the battle of [c2; c1] have different
    winners, the first of the list in both or the second in both. *)
Theorem swapping_combatants_swaps_winner (r : float)
    (st st' : Battle.state Store) (c1 c2 : Meal) (name name' : string) :
  combatants st = [c1; c2] ->
  combatants st' = [c2; c1] ->
  fst (battle upd r st) = Ok name ->
  fst (battle upd r st') = Ok name' ->
  (name = meal c1 /\ name' = meal c2) \/ (name = meal c2 /\ name' = meal c1).
Proof.
  intros Hc Hc' B B'.
  destruct (fst (get_battle_score c1 st)) as [s1|e1] eqn:H1;
    [| rewrite (battle_first_score_raises Store upd r st c1 c2 [] e1 Hc H1)
         in B; discriminate].
  destruct (fst (get_battle_score c2 st)) as [s2|e2] eqn:H2;
    [| rewrite (battle_second_score_raises Store upd r st c1 c2 [] s1 e2
                  Hc H1 H2) in B; discriminate].
  assert (H1' : fst (get_battle_score c1 st') = Ok s1).
  { rewrite get_battle_score_eq in H1 |- *. exact H1. }
  assert (H2' : fst (get_battle_score c2 st') = Ok s2).
  { rewrite get_battle_score_eq in H2 |- *. exact H2. }
  rewrite (battle_of_two Store upd r st c1 c2 [] s1 s2 Hc H1 H2) in B.
  rewrite (battle_of_two Store upd r st' c2 c1 [] s2 s1 Hc' H2' H1') in B'.
  cbv zeta in B, B'. rewrite (abs_sub_comm s2 s1) in B'.
  destruct (r <? abs (s1 - s2) / float_of_int 100).
  - left. split.
    + destruct (upd (id c1) "win"%string (store st)) as [[[]|e] w];
        [|discriminate].
      destruct (upd (id c2) "loss"%string w) as [[[]|e] w']; [|discriminate].
      destruct (list_remove c2 (combatants st)); [|discriminate].
      cbn in B. congruence.
    + destruct (upd (id c2) "win"%string (store st')) as [[[]|e] w];
        [|discriminate].
      destruct (upd (id c1) "loss"%string w) as [[[]|e] w']; [|discriminate].
      destruct (list_remove c1 (combatants st')); [|discriminate].
      cbn in B'. congruence.
  - right. split.
    + destruct (upd (id c2) "win"%string (store st)) as [[[]|e] w];
        [|discriminate].
      destruct (upd (id c1) "loss"%string w) as [[[]|e] w']; [|discriminate].
      destruct (list_remove c1 (combatants st)); [|discriminate].
      cbn in B. congruence.
    + destruct (upd (id c1) "win"%string (store st')) as [[[]|e] w];
        [|discriminate].
      destruct (upd (id c2) "loss"%string w) as [[[]|e] w']; [|discriminate].
      destruct (list_remove c2 (combatants st')); [|discriminate].
      cbn in B'. congruence.
Qed.

End MoreBattleFacts.

(** * Battles over the kitchen database *)

Section KitchenBattleFacts.

Local Open Scope Z_scope.

(** ** update_meal_stats and the records that are not deleted *)

Lemma update_meal_stats_live (i : Z) (d : database) :
  is_live i d = true ->
  update_meal_stats i "win" d
  = (Ok tt, commit (update_where_id i record_win (meals d))
              (execute (UpdateWin i) (execute (SelectDeleted i) d)))
  /\ update_meal_stats i "loss" d
  = (Ok tt, commit (update_where_id i record_loss (meals d))
              (execute (UpdateLoss i) (execute (SelectDeleted i) d))).
Proof.
  unfold is_live. rewrite !update_meal_stats_eq. cbv zeta.
  destruct (fetchone_id i d) as [r|]; [|discriminate].
  destruct (r_deleted r); [discriminate|]. intros _. split; reflexivity.
Qed.

Lemma update_meal_stats_not_live (i : Z) (res : string) (d : database) :
  is_sqlite_integer i = true ->
  is_live i d = false ->
  exists e, update_meal_stats i res d
            = (Raise e, execute (SelectDeleted i) d)
            /\ (e = ValueError (IdNotFound i) \/ e = ValueError (IdDeleted i)).
Proof.
  intros Hb. unfold is_live. rewrite update_meal_stats_eq. cbv zeta.
  destruct (fetchone_id i d) as [r|].
  - destruct (r_deleted r); [|discriminate]. intros _.
    eexists. split; [reflexivity|]. right. reflexivity.
  - intros _. rewrite Hb. eexists. split; [reflexivity|]. left. reflexivity.
Qed.

Lemma update_meal_stats_returns (i : Z) (res : string) (d : database) :
  fst (update_meal_stats i res d) = Ok tt ->
  is_live i d = true
  /\ ((res = "win"%string
       /\ meals (snd (update_meal_stats i res d))
          = update_where_id i record_win (meals d))
      \/ (res = "loss"%string
          /\ meals (snd (update_meal_stats i res d))
             = update_where_id i record_loss (meals d))).
Proof.
  unfold is_live. rewrite update_meal_stats_eq. cbv zeta.
  destruct (fetchone_id i d) as [r|];
    [|destruct (is_sqlite_integer i); discriminate].
  destruct (r_deleted r); [discriminate|].
  destruct (String.eqb res "win") eqn:W.
  - intros _. apply String.eqb_eq in W. split; [reflexivity|]. left.
    split; [exact W|reflexivity].
  - destruct (String.eqb res "loss") eqn:L; [|discriminate].
    intros _. apply String.eqb_eq in L. split; [reflexivity|]. right.
    split; [exact L|reflexivity].
Qed.

(** No call of [update_meal_stats] deletes or restores a record. *)
Lemma update_meal_stats_keeps_live (i j : Z) (res : string) (d : database) :
  is_live j (snd (update_meal_stats i res d)) = is_live j d.
Proof.
  assert (G : forall f q,
            (forall r, r_id (f r) = r_id r) ->
            (forall r, r_deleted (f r) = r_deleted r) ->
            is_live j (commit (update_where_id i f (meals d)) q)
            = is_live j d).
  { intros f q Hid Hdel. unfold is_live.
    rewrite fetchone_id_commit, find_update_where_id by exact Hid.
    unfold fetchone_id.
    destruct (find (fun r => r_id r =? j) (meals d)) as [r|]; [|reflexivity].
    cbn. destruct (r_id r =? i); [rewrite Hdel|]; reflexivity. }
  rewrite update_meal_stats_eq. cbv zeta.
  destruct (fetchone_id i d) as [r|];
    [|destruct (is_sqlite_integer i); reflexivity].
  destruct (r_deleted r); [reflexivity|].
  destruct (String.eqb res "win"); [apply G; reflexivity|].
  destruct (String.eqb res "loss"); [apply G; reflexivity|reflexivity].
Qed.

(** X12: a battle of two combatants with valid difficulties returns if and
    only if the records of both ids exist and are not deleted; otherwise it
    raises. *)
Theorem kitchen_battle_returns_iff_live (r : float) (st : state database)
    (c1 c2 : Meal) :
  combatants st = [c1; c2] ->
  str_in (difficulty c1) ["LOW"; "MED"; "HIGH"]%string = true ->
  str_in (difficulty c2) ["LOW"; "MED"; "HIGH"]%string = true ->
  (exists name, fst (kitchen_battle r st) = Ok name)
  <-> is_live (id c1) (store st) = true /\ is_live (id c2) (store st) = true.
Proof.
  intros Hc V1 V2. unfold kitchen_battle.
  destruct (get_battle_score_valid database c1 st V1) as (k1 & _ & _ & H1).
  destruct (get_battle_score_valid database c2 st V2) as (k2 & _ & _ & H2).
  rewrite (battle_of_two database update_meal_stats r st c1 c2 [] _ _
             Hc H1 H2). cbv zeta.
  match goal with
  | |- context [PrimFloat.ltb r ?x] => destruct (PrimFloat.ltb r x)
  end.
  - (* c1 is the winner *)
    split.
    + intros (name & B).
      destruct (update_meal_stats (id c1) "win" (store st))
        as [[[]|e] w] eqn:U1; [|discriminate].
      destruct (update_meal_stats (id c2) "loss" w)
        as [[[]|e] w'] eqn:U2; [|discriminate].
      pose proof (update_meal_stats_returns (id c1) "win" (store st)) as R1.
      rewrite U1 in R1. destruct (R1 eq_refl) as (L1 & _).
      pose proof (update_meal_stats_returns (id c2) "loss" w) as R2.
      rewrite U2 in R2. destruct (R2 eq_refl) as (L2 & _).
      pose proof (update_meal_stats_keeps_live (id c1) (id c2) "win"
                    (store st)) as K.
      rewrite U1 in K. cbn [snd] in K. split; congruence.
    + intros (L1 & L2).
      rewrite (proj1 (update_meal_stats_live _ _ L1)).
      match goal with
      | |- context [update_meal_stats (id c2) "loss" ?w] =>
          assert (L2' : is_live (id c2) w = true)
      end.
      { pose proof (update_meal_stats_keeps_live (id c1) (id c2) "win"
                      (store st)) as K.
        rewrite (proj1 (update_meal_stats_live _ _ L1)) in K.
        cbn [snd] in K. congruence. }
      rewrite (proj2 (update_meal_stats_live _ _ L2')).
      rewrite Hc, list_remove_second. eexists. reflexivity.
  - (* c2 is the winner *)
    split.
    + intros (name & B).
      destruct (update_meal_stats (id c2) "win" (store st))
        as [[[]|e] w] eqn:U1; [|discriminate].
      destruct (update_meal_stats (id c1) "loss" w)
        as [[[]|e] w'] eqn:U2; [|discriminate].
      pose proof (update_meal_stats_returns (id c2) "win" (store st)) as R1.
      rewrite U1 in R1. destruct (R1 eq_refl) as (L1 & _).
      pose proof (update_meal_stats_returns (id c1) "loss" w) as R2.
      rewrite U2 in R2. destruct (R2 eq_refl) as (L2 & _).
      pose proof (update_meal_stats_keeps_live (id c2) (id c1) "win"
                    (store st)) as K.
      rewrite U1 in K. cbn [snd] in K. split; congruence.
    + intros (L1 & L2).
      rewrite (proj1 (update_meal_stats_live _ _ L2)).
      match goal with
      | |- context [update_meal_stats (id c1) "loss" ?w] =>
          assert (L1' : is_live (id c1) w = true)
      end.
      { pose proof (update_meal_stats_keeps_live (id c2) (id c1) "win"
                      (store st)) as K.
        rewrite (proj1 (update_meal_stats_live _ _ L2)) in K.
        cbn [snd] in K. congruence. }
      rewrite (proj2 (update_meal_stats_live _ _ L1')).
      rewrite Hc, list_remove_first. eexists. reflexivity.
Qed.

(** ** The counters after a battle *)

(** A battle that returns has made its two calls, and both returned. *)
Lemma battle_returns_calls (Store : Type)
    (upd : Z -> string -> Store -> result unit * Store)
    (r : float) (st : state Store) (name : string) :
  fst (battle upd r st) = Ok name ->
  exists winner loser w w',
    In winner (combatants st) /\ In loser (combatants st)
    /\ upd (id winner) "win"%string (store st) = (Ok tt, w)
    /\ upd (id loser) "loss"%string w = (Ok tt, w')
    /\ store (snd (battle upd r st)) = w'
    /\ name = meal winner.
Proof.
  destruct (combatants st) as [|c1 [|c2 rest]] eqn:Hc.
  - unfold battle. rewrite Hc. discriminate.
  - unfold battle. rewrite Hc. discriminate.
  - destruct (fst (get_battle_score c1 st)) as [s1|e1] eqn:H1;
      [| rewrite (battle_first_score_raises Store upd r st c1 c2 rest e1
                    Hc H1); discriminate].
    destruct (fst (get_battle_score c2 st)) as [s2|e2] eqn:H2;
      [| rewrite (battle_second_score_raises Store upd r st c1 c2 rest s1
                    e2 Hc H1 H2); discriminate].
    rewrite (battle_of_two Store upd r st c1 c2 rest s1 s2 Hc H1 H2).
    cbv zeta.
    set (winner := if PrimFloat.ltb r (abs (s1 - s2) / float_of_int 100)
                   then c1 else c2).
    set (loser := if PrimFloat.ltb r (abs (s1 - s2) / float_of_int 100)
                  then c2 else c1).
    assert (Hw : In winner (c1 :: c2 :: rest)).
    { subst winner. destruct (PrimFloat.ltb r _); cbn; auto. }
    assert (Hl : In loser (c1 :: c2 :: rest)).
    { subst loser. destruct (PrimFloat.ltb r _); cbn; auto. }
    destruct (upd (id winner) "win"%string (store st)) as [[[]|e] w] eqn:U1;
      [|discriminate].
    destruct (upd (id loser) "loss"%string w) as [[[]|e] w'] eqn:U2;
      [|discriminate].
    destruct (list_remove loser (combatants st)) as [l|e];
      [|discriminate].
    cbn [fst snd store]. intros B. injection B as <-.
    exists winner, loser, w, w'. auto 10.
Qed.

Lemma update_where_id_absent (i : Z) (f : row -> row) (rows : list row) :
  ~ In i (map r_id rows) -> update_where_id i f rows = rows.
Proof.
  induction rows as [|r rows IH]; cbn [update_where_id map]; intros H.
  - reflexivity.
  - fold (update_where_id i f rows). cbn in H.
    rewrite IH by tauto.
    destruct (Z.eqb_spec (r_id r) i); [tauto|reflexivity].
Qed.

(** An UPDATE of the one record of an id adds to a total what it adds to
    that record. *)
Lemma total_after_update (g : row -> Z) (b : Z) (i : Z) (f : row -> row)
    (rows : list row) :
  NoDup (map r_id rows) -> In i (map r_id rows) ->
  (forall r, g (f r) = g r + b) ->
  fold_right (fun r acc => g r + acc) 0 (update_where_id i f rows)
  = fold_right (fun r acc => g r + acc) 0 rows + b.
Proof.
  intros Hn Hin Hf.
  induction rows as [|r rows IH]; cbn [update_where_id map fold_right].
  - destruct Hin.
  - fold (update_where_id i f rows).
    cbn [map] in Hn, Hin. inversion Hn as [|? ? Hnot Hn']; subst.
    destruct (Z.eqb_spec (r_id r) i) as [E|E].
    + rewrite update_where_id_absent by congruence. rewrite Hf. lia.
    + destruct Hin as [Hin|Hin]; [congruence|].
      rewrite (IH Hn' Hin). lia.
Qed.

Lemma is_live_in (i : Z) (d : database) :
  is_live i d = true -> In i (map r_id (meals d)).
Proof.
  unfold is_live. destruct (fetchone_id i d) as [r|] eqn:E; [|discriminate].
  intros _. destruct (fetchone_id_found _ _ _ E) as (Hin & Hid).
  apply in_map_iff. exists r. auto.
Qed.

(** X13: in a table where the ids are unique, a battle that returns adds
    exactly 2 to the battles and 1 to the wins recorded in the whole table
    (also when a meal battles itself), and the table has the records it had,
    with their names, prices and deleted flags. *)
Theorem battle_adds_two_battles_one_win (r : float) (st : state database)
    (name : string) :
  NoDup (map r_id (meals (store st))) ->
  fst (kitchen_battle r st) = Ok name ->
  let after := meals (store (snd (kitchen_battle r st))) in
  total_battles after = total_battles (meals (store st)) + 2
  /\ total_wins after = total_wins (meals (store st)) + 1
  /\ map description after = map description (meals (store st)).
Proof.
  intros Hn B. cbv zeta. unfold kitchen_battle in *.
  destruct (battle_returns_calls database update_meal_stats r st name B)
    as (winner & loser & w & w' & _ & _ & U1 & U2 & -> & _).
  pose proof (update_meal_stats_returns (id winner) "win" (store st)) as R1.
  rewrite U1 in R1. destruct (R1 eq_refl) as (L1 & [(_ & M1)|(F & _)]);
    [|discriminate].
  pose proof (update_meal_stats_returns (id loser) "loss" w) as R2.
  rewrite U2 in R2. destruct (R2 eq_refl) as (L2 & [(F & _)|(_ & M2)]);
    [discriminate|].
  cbn [snd] in M1, M2.
  assert (Hn1 : NoDup (map r_id (meals w))).
  { rewrite M1, map_update_where_id by reflexivity. exact Hn. }
  pose proof (is_live_in _ _ L1) as I1.
  pose proof (is_live_in _ _ L2) as I2.
  unfold total_battles, total_wins. rewrite M2, M1.
  split; [|split].
  - rewrite (total_after_update r_battles 1) ; [| rewrite <- M1; exact Hn1
                                                 | rewrite <- M1; exact I2
                                                 | reflexivity].
    rewrite (total_after_update r_battles 1 _ _ _ Hn I1) by reflexivity.
    lia.
  - rewrite (total_after_update r_wins 0) ; [| rewrite <- M1; exact Hn1
                                              | rewrite <- M1; exact I2
                                              | intros; cbn; lia].
    rewrite (total_after_update r_wins 1 _ _ _ Hn I1) by reflexivity.
    lia.
  - rewrite !map_update_where_id by reflexivity. reflexivity.
Qed.

(** X14: the two calls of a battle are not undone together.  When the
    winner's record is live and the loser's is missing or deleted (the
    loser's id being an integer of sqlite), [battle] raises after the first
    call: the two combatants stay in the list, and the winner's record
    keeps the win and the battle that were written. *)
Theorem battle_failure_keeps_the_win (r : float) (st : state database)
    (c1 c2 : Meal) (s1 s2 : float) (rw : row) :
  combatants st = [c1; c2] ->
  fst (get_battle_score c1 st) = Ok s1 ->
  fst (get_battle_score c2 st) = Ok s2 ->
  let delta := (abs (s1 - s2) / float_of_int 100)%float in
  let winner := if PrimFloat.ltb r delta then c1 else c2 in
  let loser := if PrimFloat.ltb r delta then c2 else c1 in
  fetchone_id (id winner) (store st) = Some rw ->
  r_deleted rw = false ->
  - 2 ^ 63 <= id loser < 2 ^ 63 ->
  is_live (id loser) (store st) = false ->
  (fst (kitchen_battle r st) = Raise (ValueError (IdNotFound (id loser)))
   \/ fst (kitchen_battle r st) = Raise (ValueError (IdDeleted (id loser))))
  /\ combatants (snd (kitchen_battle r st)) = [c1; c2]
  /\ fetchone_id (id winner) (store (snd (kitchen_battle r st)))
     = Some (record_win rw).
Proof.
  intros Hc H1 H2. cbv zeta.
  set (winner := if PrimFloat.ltb r (abs (s1 - s2) / float_of_int 100)
                 then c1 else c2).
  set (loser := if PrimFloat.ltb r (abs (s1 - s2) / float_of_int 100)
                then c2 else c1).
  intros Hrow Hlive Hbind Hdead. unfold kitchen_battle.
  apply is_sqlite_integer_spec in Hbind.
  rewrite (battle_of_two database update_meal_stats r st c1 c2 [] s1 s2
             Hc H1 H2). cbv zeta. fold winner. fold loser.
  assert (L1 : is_live (id winner) (store st) = true).
  { unfold is_live. rewrite Hrow, Hlive. reflexivity. }
  rewrite (proj1 (update_meal_stats_live _ _ L1)).
  match goal with
  | |- context [update_meal_stats (id loser) "loss" ?w] =>
      set (d1 := w);
      assert (Hdead' : is_live (id loser) d1 = false)
  end.
  { pose proof (update_meal_stats_keeps_live (id winner) (id loser) "win"
                  (store st)) as K.
    rewrite (proj1 (update_meal_stats_live _ _ L1)) in K.
    cbn [snd] in K. subst d1. congruence. }
  destruct (update_meal_stats_not_live (id loser) "loss" d1 Hbind Hdead')
    as (e & U2 & He).
  rewrite U2. cbn [fst snd combatants store].
  split; [destruct He as [-> | ->]; auto|]. split; [exact Hc|].
  rewrite fetchone_id_execute. subst d1.
  rewrite fetchone_id_commit, find_update_where_id by reflexivity.
  unfold fetchone_id in Hrow. rewrite Hrow. cbn.
  destruct (find_some _ _ Hrow) as (_ & Hid). rewrite Hid. reflexivity.
Qed.

End KitchenBattleFacts.

(** ** Battles of the test suite, continued *)

Lemma battle_unknown_difficulty_witness :
  kitchen_battle r_0_1 (pool [invalid_meal; burger] two_meals)
  = (Raise (KeyError "INVALID"), pool [invalid_meal; burger] two_meals).
Proof.
  exact (proj1 (battle_unknown_difficulty database update_meal_stats r_0_1
                  (pool [invalid_meal; burger] two_meals)
                  invalid_meal burger [] eq_refl) eq_refl).
Defined.

Lemma equal_scores_second_wins_witness :
  fst (kitchen_battle r_0_1 (pool [pasta; pasta] two_meals)) = Ok "Pasta"
  /\ combatants (snd (kitchen_battle r_0_1 (pool [pasta; pasta] two_meals)))
     = [pasta].
Proof.
  unfold kitchen_battle.
  rewrite (equal_scores_second_wins database update_meal_stats r_0_1
             (pool [pasta; pasta] two_meals) pasta pasta 85.5%float _ _
             eq_refl eq_refl eq_refl eq_refl eq_refl eq_refl).
  split; reflexivity.
Defined.

Lemma large_delta_first_wins_witness :
  fst (kitchen_battle r_0_3 (pool [expensive; cheap] two_meals))
  = Ok "ExpensiveMeal".
Proof.
  unfold kitchen_battle.
  rewrite (large_delta_first_wins database update_meal_stats r_0_3
             (pool [expensive; cheap] two_meals) expensive cheap
             14997%float 4%float _ _
             eq_refl eq_refl eq_refl eq_refl eq_refl eq_refl eq_refl).
  reflexivity.
Defined.

Lemma swapping_combatants_swaps_winner_witness :
  ("Pasta"%string = meal pasta /\ "Burger"%string = meal burger)
  \/ ("Pasta"%string = meal burger /\ "Burger"%string = meal pasta).
Proof.
  exact (swapping_combatants_swaps_winner database update_meal_stats r_0_1
           (pool [pasta; burger] two_meals) (pool [burger; pasta] two_meals)
           pasta burger "Pasta" "Burger" eq_refl eq_refl eq_refl eq_refl).
Defined.

Lemma kitchen_battle_returns_iff_live_witness :
  exists name, fst (kitchen_battle r_0_1 (ready two_meals)) = Ok name.
Proof.
  apply (proj2 (kitchen_battle_returns_iff_live r_0_1 (ready two_meals)
                  pasta burger eq_refl eq_refl eq_refl)).
  split; reflexivity.
Defined.

Lemma battle_adds_two_battles_one_win_witness :
  total_battles (meals (store (snd (kitchen_battle r_0_1 (ready two_meals)))))
  = total_battles (meals two_meals) + 2
  /\ total_wins (meals (store (snd (kitchen_battle r_0_1 (ready two_meals)))))
     = total_wins (meals two_meals) + 1.
Proof.
  assert (N : NoDup (map r_id (meals (store (ready two_meals))))).
  { cbn. constructor.
    - intros [H|[]]. discriminate.
    - constructor; [intros []|constructor]. }
  destruct (battle_adds_two_battles_one_win r_0_1 (ready two_meals) "Pasta"
              N eq_refl) as (A & B & _).
  split; assumption.
Defined.

Lemma battle_failure_keeps_the_win_witness :
  fst (kitchen_battle r_0_1 (ready burger_deleted))
    = Raise (ValueError (IdDeleted 2))
  /\ fetchone_id 1 (store (snd (kitchen_battle r_0_1 (ready burger_deleted))))
     = Some (record_win (fresh_row pasta)).
Proof.
  assert (Hb : - 2 ^ 63 <= id burger < 2 ^ 63) by (cbn [id burger]; lia).
  destruct (battle_failure_keeps_the_win r_0_1 (ready burger_deleted)
              pasta burger 85.5%float 61%float (fresh_row pasta)
              eq_refl eq_refl eq_refl eq_refl eq_refl Hb eq_refl)
    as (_ & _ & W).
  split; [reflexivity | exact W].
Defined.

(** * The ends of the leaderboard *)

Section LeaderboardEnds.

Local Open Scope Z_scope.

(** A finite number times 1 is the number. *)
Lemma SFmul_one (s : bool) (m : positive) (e : Z) :
  valid_binary (S754_finite s m e) = true ->
  SFmul prec emax (S754_finite s m e) (S754_finite false 4503599627370496 (-52))
  = S754_finite s m e.
Proof.
  unfold valid_binary. cbn [SpecFloat.valid_binary]. unfold bounded, canonical_mantissa.
  rewrite andb_true_iff, Z.eqb_eq, Z.leb_le. intros (Hc & He).
  cbn [SFmul]. rewrite xorb_false_r.
  rewrite (Pos.mul_comm m).
  change (4503599627370496 * m)%positive with (Pos.iter xO m 52).
  unfold binary_round_aux, shr_fexp. cbn [Zdigits2].
  rewrite digits2_pos_iter_xO.
  replace (fexp prec emax (Z.pos (digits2_pos m + 52) + (e + -52)) - (e + -52))
    with 52 by (rewrite Pos2Z.inj_add; replace (Z.pos (digits2_pos m) + 52 + (e + -52)) with (Z.pos (digits2_pos m) + e) by lia; lia).
  cbn [shr shr_record_of_loc iter_pos shr_1 Pos.iter shr_m orb
       loc_of_shr_record round_nearest_even Zdigits2].
  replace (e + -52 + 52) with e by lia.
  rewrite Hc, Z.sub_diag. cbn [shr shr_m].
  apply Z.leb_le in He. rewrite He. reflexivity.
Qed.

(** A finite number divided by itself is 1. *)
Lemma SFdiv_self (s : bool) (m : positive) (e : Z) :
  SFdiv prec emax (S754_finite s m e) (S754_finite s m e)
  = S754_finite false 4503599627370496 (-52).
Proof.
  cbn [SFdiv]. unfold SFdiv_core_binary.
  replace (Z.min (fexp prec emax (Zdigits2 (Z.pos m) + e - (Zdigits2 (Z.pos m) + e))) (e - e))
    with (-53) by (rewrite !Z.sub_diag; reflexivity).
  replace (e - e - -53) with 53 by lia.
  assert (D : Z.div_eucl (Z.shiftl (Z.pos m) 53) (Z.pos m) = (2 ^ 53, 0)).
  { rewrite Z.shiftl_mul_pow2 by lia.
    pose proof (Z.div_mul (2 ^ 53) (Z.pos m) ltac:(lia)) as Q.
    pose proof (Z.mod_mul (2 ^ 53) (Z.pos m) ltac:(lia)) as R.
    rewrite (Z.mul_comm (2 ^ 53)) in Q, R.
    unfold Z.div in Q. unfold Z.modulo in R.
    destruct (Z.div_eucl (Z.pos m * 2 ^ 53) (Z.pos m)) as [q r].
    subst. reflexivity. }
  rewrite D.
  assert (L : new_location (Z.pos m) 0 = loc_Exact).
  { unfold new_location. destruct (Z.even (Z.pos m)); reflexivity. }
  rewrite L. destruct s; reflexivity.
Qed.

Lemma win_ratio_no_win (battles : Z) :
  0 < battles < 2 ^ 63 -> win_ratio 0 battles = 0%float.
Proof.
  intros H. destruct (float_of_int_positive battles H) as (m & e & E).
  apply Prim2SF_inj. unfold win_ratio. rewrite div_spec, E.
  change (Prim2SF (float_of_int 0 * 1)) with (S754_zero false).
  reflexivity.
Qed.

Lemma win_ratio_all_wins (battles : Z) :
  0 < battles < 2 ^ 63 -> win_ratio battles battles = 1%float.
Proof.
  intros H. destruct (float_of_int_positive battles H) as (m & e & E).
  apply Prim2SF_inj. unfold win_ratio. rewrite div_spec, mul_spec, E.
  change (Prim2SF 1) with (S754_finite false 4503599627370496 (-52)).
  unfold SF64mul. rewrite SFmul_one.
  - apply SFdiv_self.
  - rewrite <- E. apply Prim2SF_valid.
Qed.

(** X15: on the leaderboard a record that has fought and never won has
    win_pct 0.0, and a record that has won all its battles has win_pct
    100.0, whatever the number of battles. *)
Theorem leaderboard_ends (r : row) :
  is_counter (r_battles r) = true ->
  0 < r_battles r ->
  (r_wins r = 0 ->
   exists e, to_entry r = Ok e /\ e_win_pct e = 0%float)
  /\ (r_wins r = r_battles r ->
      exists e, to_entry r = Ok e /\ e_win_pct e = 100%float).
Proof.
  intros Hb Hpos.
  pose proof (is_counter_range _ Hb) as Rb.
  split; intros Hw.
  - assert (Cw : is_counter (r_wins r) = true) by (rewrite Hw; reflexivity).
    destruct (win_pct_column_number r Cw Hb Hpos) as (E & _).
    exists (leaderboard_entry r). split; [apply to_entry_number; exact E|].
    cbn [leaderboard_entry e_win_pct].
    rewrite Hw, win_ratio_no_win by lia. reflexivity.
  - assert (Cw : is_counter (r_wins r) = true) by (rewrite Hw; exact Hb).
    destruct (win_pct_column_number r Cw Hb Hpos) as (E & _).
    exists (leaderboard_entry r). split; [apply to_entry_number; exact E|].
    cbn [leaderboard_entry e_win_pct].
    rewrite Hw, win_ratio_all_wins by lia. reflexivity.
Qed.

End LeaderboardEnds.

Lemma leaderboard_ends_witness :
  exists e,
    to_entry {| r_id := 2; r_meal := "Burger"; r_cuisine := "American";
                r_price := 8; r_difficulty := "LOW";
                r_battles := 7; r_wins := 7; r_deleted := false |} = Ok e
    /\ e_win_pct e = 100%float.
Proof.
  assert (P : 0 < 7) by lia.
  exact (proj2 (leaderboard_ends
                  {| r_id := 2; r_meal := "Burger"; r_cuisine := "American";
                     r_price := 8; r_difficulty := "LOW";
                     r_battles := 7; r_wins := 7; r_deleted := false |}
                  eq_refl P) eq_refl).
Defined.

(** * From a recorded battle to the leaderboard *)

Section RecordedBattle.

Local Open Scope Z_scope.

Lemma get_leaderboard_wins_returns (d : database) :
  counters_in_range (meals d) = true ->
  fst (get_leaderboard "wins" d)
  = Ok (map leaderboard_entry (select_leaderboard false (meals d))).
Proof.
  intros Hc.
  destruct (select_leaderboard_rows false (meals d) Hc) as (_ & F).
  unfold get_leaderboard. cbn [String.eqb Ascii.eqb Bool.eqb fst].
  apply to_entries_numbers.
  eapply Forall_impl; [|exact F]. intros r (E & _). exact E.
Qed.

(** X16: once [update_meal_stats] has recorded a win or a loss for a
    record, the leaderboard lists the meal, with the battle counted: the
    record is not deleted and its battle count is above 0. *)
Theorem recorded_battle_is_listed (d : database) (meal_id : Z) (r : row)
    (result0 : string) :
  fetchone_id meal_id d = Some r ->
  0 <= r_battles r ->
  fst (update_meal_stats meal_id result0 d) = Ok tt ->
  let d' := snd (update_meal_stats meal_id result0 d) in
  counters_in_range (meals d') = true ->
  exists es e,
    fst (get_leaderboard "wins" d') = Ok es
    /\ In e es
    /\ e_id e = meal_id
    /\ e_battles e = r_battles r + 1.
Proof.
  intros Hrow Hb Hok. cbv zeta. intros Hc.
  destruct (fetchone_id_found _ _ _ Hrow) as (_ & Hid).
  destruct (update_meal_stats_returns meal_id result0 d Hok)
    as (Hlive & Hrows).
  unfold is_live in Hlive. rewrite Hrow in Hlive.
  apply negb_true_iff in Hlive.
  assert (Hfind : find (fun r0 => r_id r0 =? meal_id) (meals d) = Some r)
    by exact Hrow.
  assert (Hnew : exists r',
             In r' (meals (snd (update_meal_stats meal_id result0 d)))
             /\ r_id r' = meal_id /\ r_deleted r' = false
             /\ r_battles r' = r_battles r + 1).
  { destruct Hrows as [(_ & M)|(_ & M)]; rewrite M.
    - exists (record_win r).
      assert (F : find (fun r0 => r_id r0 =? meal_id)
                    (update_where_id meal_id record_win (meals d))
                  = Some (record_win r)).
      { rewrite find_update_where_id by reflexivity. rewrite Hfind. cbn.
        rewrite Hid, Z.eqb_refl. reflexivity. }
      apply find_some in F. destruct F as (Hin & _).
      cbn. repeat split; assumption.
    - exists (record_loss r).
      assert (F : find (fun r0 => r_id r0 =? meal_id)
                    (update_where_id meal_id record_loss (meals d))
                  = Some (record_loss r)).
      { rewrite find_update_where_id by reflexivity. rewrite Hfind. cbn.
        rewrite Hid, Z.eqb_refl. reflexivity. }
      apply find_some in F. destruct F as (Hin & _).
      cbn. repeat split; assumption. }
  destruct Hnew as (r' & Hin & Hid' & Hdel & Hbat).
  exists (map leaderboard_entry
            (select_leaderboard false
               (meals (snd (update_meal_stats meal_id result0 d))))),
         (leaderboard_entry r').
  split; [apply get_leaderboard_wins_returns; exact Hc|].
  split; [|split; [exact Hid'|exact Hbat]].
  apply in_map.
  destruct (select_leaderboard_rows false _ Hc) as (P & _).
  apply (Permutation_in _ (Permutation_sym P)).
  apply filter_In. split; [exact Hin|].
  unfold on_leaderboard. rewrite Hdel. cbn. apply Z.ltb_lt. lia.
Qed.

End RecordedBattle.

Lemma recorded_battle_is_listed_witness :
  exists es e,
    fst (get_leaderboard "wins" (snd (update_meal_stats 2 "loss" two_meals)))
    = Ok es
    /\ In e es /\ e_id e = 2 /\ e_battles e = 0 + 1.
Proof.
  assert (P : 0 <= 0) by lia.
  exact (recorded_battle_is_listed two_meals 2 (fresh_row burger) "loss"
           eq_refl P eq_refl eq_refl).
Defined.
